(** * SMP-Sea-Ice: a shallow embedding of the notebooks

    The development follows the three notebooks that are part of the
    sources:

    - [Validation]      Part 1, alignment of SMP profiles and snow pits;
    - [Classification]  Part 3, classification of SMP profiles;
    - [Application]     Part 5, propagation bias in freeboard retrievals;
    - [Doubles]         Part 5, the two speed-of-light helpers on IEEE
                        doubles.

    In the first three modules Python floats are modelled by exact numbers:
    rationals ([Q]) in Part 1, where the code only adds, multiplies, divides
    and compares, and reals ([R]) in Part 5, where it takes square roots and
    fractional powers; what is proved there is about the control flow, the
    indexing and the tables, and holds of the exact formulas.  Where the
    last bit of a result matters the code is modelled on binary64 numbers
    ([Doubles]).  A float that may be NaN is an [option]: [None] is NaN.
    The helpers of [smpfunc.py] and the calls into snowmicropyn, scikit-learn
    and pyproj are not part of the sources; they are section variables of
    the cells that call them. *)

From Stdlib Require Import String Ascii.
From Stdlib Require Import ZArith QArith Qabs Qround Bool Arith Lia Lqa.
From Stdlib Require Reals Lra.
From Stdlib Require DecimalString.
From Stdlib Require PrimFloat FloatOps SpecFloat.
From Stdlib Require Import List Sorted.
Import ListNotations.

Set Implicit Arguments.

(* ===================================================================== *)
(** * Python values shared by the notebooks *)
(* ===================================================================== *)

(** The exceptions the modelled cells can raise. *)
Inductive exn : Type :=
| IndexError          (* [values[0]] / [iloc[0]] on an empty selection *)
| TypeError           (* [int(...)] / [np.arange] on an array that is not of size 1 *)
| ValueError          (* [int('...')] on a non-number, [np.interp] and [np.arange]
                         on bad arguments, a column of the wrong length *)
| ZeroDivisionError.  (* division by a layer size of zero *)

(** A float that may be NaN. *)
Definition value := option Q.

Definition isnan (v : value) : bool :=
  match v with None => true | Some _ => false end.

Definition Qlt_bool (x y : Q) : bool := negb (Qle_bool y x).

(* ===================================================================== *)
(** * Part 1: alignment of SMP and snow pits *)
(* ===================================================================== *)

Module Validation.

Local Open Scope Q_scope.

(** ** NumPy helpers used by the alignment cell *)

(** [np.arange(start, stop, step)]: [ceil((stop - start)/step)] values
    [start + i*step] (none when that number is not positive).  The number of
    values is taken on the rationals; NumPy takes it in doubles, where the
    quotient can round across an integer. *)
Definition np_arange (start stop step : Q) : list Q :=
  map (fun i => start + inject_Z (Z.of_nat i) * step)
      (seq 0 (Z.to_nat (Qceiling ((stop - start) / step)))).

(** The index [j] with [xp[j] <= x < xp[j+1]] that [np.interp] looks up, for
    [xp] increasing and [xp[0] <= x]: the number of leading sample points
    that are at most [x], minus one. *)
Fixpoint leading_le (x : Q) (xp : list Q) : nat :=
  match xp with
  | [] => 0
  | a :: xp' => if Qle_bool a x then S (leading_le x xp') else 0
  end.

(** One query of [np.interp(x, xp, fp)] with the default [left] and [right]:
    beyond the last sample point the last value, before the first one the
    first value, at [xp[j]] the value [fp[j]], in between the chord. *)
Definition interp_at (xp fp : list Q) (x : Q) : Q :=
  let n := length xp in
  if Qlt_bool (nth (n - 1) xp 0) x then nth (n - 1) fp 0
  else if Qlt_bool x (nth 0 xp 0) then nth 0 fp 0
  else
    let j := (leading_le x xp - 1)%nat in
    if (j =? n - 1)%nat then nth j fp 0
    else if Qeq_bool (nth j xp 0) x then nth j fp 0
    else
      let slope := (nth (S j) fp 0 - nth j fp 0) / (nth (S j) xp 0 - nth j xp 0) in
      slope * (x - nth j xp 0) + nth j fp 0.

(** [np.interp(x, xp, fp)] on arrays: [ValueError] when the sample points
    are empty or [fp] and [xp] differ in length. *)
Definition np_interp (x xp fp : list Q) : exn + list Q :=
  match xp with
  | [] => inl ValueError
  | _ :: _ =>
      if (length fp =? length xp)%nat then inr (map (interp_at xp fp) x)
      else inl ValueError
  end.

(** ** The skill table and [sort_values] *)

(** One row of [retrieved_skill], columns ['r','rmse','rmse_corr','mae']. *)
Record skill : Type := mkSkill {
  r : value;
  rmse : value;
  rmse_corr : value;
  mae : value
}.

(** Comparison of one sort key; pandas puts NaN last whatever the
    direction ([na_position='last']). *)
Definition key_cmp (ascending : bool) (a b : value) : comparison :=
  match a, b with
  | Some x, Some y => if ascending then x ?= y else y ?= x
  | Some _, None => Lt
  | None, Some _ => Gt
  | None, None => Eq
  end.

(** The lexicographic order of
    [sort_values(['r', 'rmse_corr'], ascending=[False, True])]. *)
Definition skill_cmp (a b : skill) : comparison :=
  match key_cmp false (r a) (r b) with
  | Eq => key_cmp true (rmse_corr a) (rmse_corr b)
  | c => c
  end.

Definition skill_leb (a b : skill) : bool :=
  match skill_cmp a b with Gt => false | _ => true end.

(** A data frame with the default integer index: rows paired with their
    index labels. *)
Definition indexed (A : Type) := list (nat * A).

Definition DataFrame {A} (rows : list A) : indexed A :=
  combine (seq 0 (length rows)) rows.

(** pandas sorts several keys with a stable sort: rows that tie on every
    key keep their order. *)
Fixpoint insert_row (x : nat * skill) (l : indexed skill) : indexed skill :=
  match l with
  | [] => [x]
  | y :: l' => if skill_leb (snd x) (snd y) then x :: l else y :: insert_row x l'
  end.

Definition sort_values (df : indexed skill) : indexed skill :=
  fold_right insert_row [] df.

(** [df.head(1).index.values] *)
Definition head1_index {A} (df : indexed A) : list nat :=
  map fst (firstn 1 df).

(** [int(a)] of an integer array: only a size-1 array converts. *)
Definition int_of_array (a : list nat) : exn + nat :=
  match a with
  | [i] => inr i
  | _ => inl TypeError
  end.

(** Line 232 of the alignment cell. *)
Definition min_scaling_idx (retrieved_skill : indexed skill) : list nat :=
  head1_index (sort_values retrieved_skill).

(** ** The ranking the selection rule describes *)

(** [a] comes strictly before [b] by descending [r] (NaN last). *)
Definition r_higher (a b : skill) : Prop :=
  match r a, r b with
  | Some x, Some y => y < x
  | Some _, None => True
  | None, _ => False
  end.

Definition r_tie (a b : skill) : Prop :=
  match r a, r b with
  | Some x, Some y => x == y
  | None, None => True
  | _, _ => False
  end.

(** [a] comes no later than [b] by ascending bias-corrected RMSE (NaN last). *)
Definition rmse_corr_no_higher (a b : skill) : Prop :=
  match rmse_corr a, rmse_corr b with
  | Some x, Some y => x <= y
  | _, None => True
  | None, Some _ => False
  end.

(** [a] ranks at least as high as [b]: higher [r], or the same [r] and a
    bias-corrected RMSE that is not higher. *)
Definition ranks_no_lower (a b : skill) : Prop :=
  r_higher a b \/ (r_tie a b /\ rmse_corr_no_higher a b).

(** ** Tables of the alignment cell *)

(** A scaling candidate: one entry per layer of [L_RESAMPLE] mm. *)
Definition plan := list Q.

(** The constants and conditions set in the first code cell. *)
Record settings : Type := mkSettings {
  CUTTER_SIZE : Q;          (* half the height of the density cutter, mm *)
  WINDOW_SIZE : Q;          (* SMP analysis window, mm *)
  H_RESAMPLE : Q;           (* delta height of the standardized profiles, mm *)
  L_RESAMPLE : Q;           (* layer unit height for matching, mm *)
  MAX_STRETCH_LAYER : Q;
  MAX_STRETCH_OVERALL : Q;
  NUM_TESTS : nat;          (* number of scaling candidates *)
  skip_alignment : bool;
  paper_conditions : bool
}.

(** The columns of [pit_summary] the cell reads. *)
Record pit_row : Type := mkPit {
  ID : string;
  SMPF : Z;                 (* last 4 digits of the SMP file name *)
  MPD : Q                   (* Magnaprobe snow thickness, m *)
}.

(** A row of [pit_density]. *)
Record cutter_row : Type := mkCutter {
  cutter_ID : string;
  TOP : Q;                  (* top of the sample, cm *)
  RHO : value;              (* density-cutter density *)
  TYPE : option string      (* layer type, NaN when not recorded *)
}.

(** A row of [density_df] after [assign(relative_height=...)] and
    [reset_index()]: the old index label becomes the column ['index']. *)
Record density_row : Type := mkDensity {
  index : nat;
  cutter : cutter_row;
  relative_height : Q
}.

(** Rows of the tables snowmicropyn derives from a profile. *)
Record p2015_row : Type := mkP2015 {
  p2015_distance : Q;
  P2015_density : Q
}.

Record l2012_row : Type := mkL2012 {
  l2012_force_median : Q;
  L2012_L : Q
}.

(** A row of [smp_df]. *)
Record smp_row : Type := mkSmp {
  distance : Q;
  density : Q;
  smp_force_median : Q;
  smp_l : Q
}.

(** A row of what [smpfunc.extract_samples] returns. *)
Record sample : Type := mkSample {
  count_samp : value;
  mean_samp : value
}.

(** A row of a [compare_profiles] table: [pd.concat([profile,
    density_df.reset_index()], axis=1)].  Where one side has no row at an
    index, its columns are NaN. *)
Record compare_row : Type := mkCompare {
  samp : sample;
  pit : option density_row
}.

(** A row of [comparison_df]: a compare row with the assigned columns. *)
Record comparison_row : Type := mkComparison {
  base : compare_row;
  l : value;
  force_median : value
}.

(** A row of the filtered table, with its ['error'] column. *)
Record result_row : Type := mkResult {
  row : comparison_row;
  error : value
}.

Definition nan_sample : sample := mkSample None None.

(** [pd.concat([a, b], axis=1)] on two tables with the default index. *)
Fixpoint concat_axis1 (a : list sample) (b : list density_row) : list compare_row :=
  match a with
  | [] => map (fun y => mkCompare nan_sample (Some y)) b
  | x :: a' =>
      match b with
      | [] => mkCompare x None :: concat_axis1 a' []
      | y :: b' => mkCompare x (Some y) :: concat_axis1 a' b'
      end
  end.

(** [df.assign(l=s1, force_median=s2)] with two series on the default
    index: a row without a partner in a series gets NaN. *)
Definition assign_l_force_median (df : list compare_row) (s1 s2 : list value)
  : list comparison_row :=
  map (fun ic : nat * compare_row =>
         mkComparison (snd ic) (nth (fst ic) s1 None) (nth (fst ic) s2 None))
      (DataFrame df).

(** [max()] of a float column: NaN on an empty one. *)
Definition column_max (c : list Q) : value :=
  match c with
  | [] => None
  | x :: c' => Some (fold_left (fun m y => if Qle_bool m y then y else m) c' x)
  end.

(** [a[-n:]] on a string. *)
Definition str_suffix (n : nat) (a : string) : string :=
  substring (String.length a - n) n a.

(** [a[0]] on an array. *)
Definition first_value {A} (a : list A) : exn + A :=
  match a with
  | [] => inl IndexError
  | x :: _ => inr x
  end.

(** [a[i]] on a list, for an index that is not negative. *)
Definition getitem {A} (a : list A) (i : nat) : exn + A :=
  match nth_error a i with
  | Some x => inr x
  | None => inl IndexError
  end.

(** A size-1 array where NumPy wants a scalar; an array of several elements
    has no truth value, which is a [ValueError]. *)
Definition scalar_of_array (a : list value) : exn + value :=
  match a with
  | [] => inl TypeError
  | [x] => inr x
  | _ :: _ :: _ => inl ValueError
  end.

(** [np.arange(0, stop, step)] as the cell calls it: [stop] is the array
    [p2015.distance.max() + smp_height_diff], which NumPy takes for a scalar
    when it has one element.  NumPy finds no length for a NaN stop or a zero
    step. *)
Definition depth_axis (stop : list value) (step : Q) : exn + list Q :=
  match scalar_of_array stop with
  | inl e => inl e
  | inr None => inl ValueError
  | inr (Some s) =>
      if Qeq_bool step 0 then inl ValueError
      else inr (np_arange 0 s step)
  end.

(** Float arithmetic that lets NaN through. *)
Definition vlift2 (f : Q -> Q -> Q) (a b : value) : value :=
  match a, b with
  | Some x, Some y => Some (f x y)
  | _, _ => None
  end.

(** [pd.DataFrame({'distance': .., 'density': .., 'force_median': ..,
    'l': ..})] on four arrays of the length of the first. *)
Definition make_smp_df (depth_array density_array force_array l_array : list Q)
  : list smp_row :=
  map (fun i => mkSmp (nth i depth_array 0) (nth i density_array 0)
                      (nth i force_array 0) (nth i l_array 0))
      (seq 0 (length depth_array)).

(** ** Filtering of results (the cell after the alignment) *)

(** A row has a NaN in some column. *)
Definition has_nan (c : comparison_row) : bool :=
  isnan (count_samp (samp (base c))) || isnan (mean_samp (samp (base c)))
  || match pit (base c) with
     | None => true
     | Some d =>
         isnan (RHO (cutter d))
         || match TYPE (cutter d) with None => true | Some _ => false end
     end
  || isnan (l c) || isnan (force_median c).

Definition dropna (df : list comparison_row) : list comparison_row :=
  filter (fun c => negb (has_nan c)) df.

(** [result['count_samp'] >= CUTTER_SIZE*2]; a comparison with NaN is
    false. *)
Definition count_ok (cutter_size : Q) (c : comparison_row) : bool :=
  match count_samp (samp (base c)) with
  | Some n => Qle_bool (cutter_size * 2) n
  | None => false
  end.

Definition TYPE_of (c : comparison_row) : option string :=
  match pit (base c) with
  | Some d => TYPE (cutter d)
  | None => None
  end.

(** [result['TYPE'].isin(['N', 'I'])] *)
Definition new_snow_or_ice (c : comparison_row) : bool :=
  match TYPE_of c with
  | Some t => String.eqb t "N" || String.eqb t "I"
  | None => false
  end.

(** [result['mean_samp'] - result['RHO']] *)
Definition error_of (c : comparison_row) : value :=
  vlift2 Qminus (mean_samp (samp (base c)))
         (match pit (base c) with Some d => RHO (cutter d) | None => None end).

(** The filtering cell: the table [result] it leaves.  The rows are typed,
    so the table always has its columns; a [comparison_df] to which no pass
    appended anything is the column-less [pd.DataFrame()] in the notebook,
    on which the cell stops with a KeyError at [result['TYPE']]. *)
Definition filter_results (cutter_size : Q) (comparison_df : list comparison_row)
  : list result_row :=
  let result := dropna comparison_df in
  let result := filter (count_ok cutter_size) result in
  let result := filter (fun c => negb (new_snow_or_ice c)) result in
  map (fun c => mkResult c (error_of c)) result.

(** ** The notebook kernel *)

(** What a cell leaves behind when it stops. *)
Inductive outcome (A : Type) : Type :=
| Ok (a : A)
| Raised (e : exn).
Arguments Raised {A} e.

(** Steps that only compute or raise. *)
Definition bindE {A B} (c : exn + A) (f : A -> exn + B) : exn + B :=
  match c with
  | inl e => inl e
  | inr a => f a
  end.

Notation "'let?' x ':=' c 'in' k" := (bindE c (fun x => k))
  (at level 10, x pattern, c at level 100, k at level 200).

Section AlignmentCell.

(** *** Collaborators that are not part of the sources *)

(** NumPy's global random state, and [np.random.seed]. *)
Variable rng : Type.
Variable np_random_seed : Z -> rng.

(** snowmicropyn: a loaded profile, its name, and the tables
    [proksch2015.calc] and [loewe2012.calc] derive from its samples
    within the snowpack for a window size. *)
Variable Profile : Type.
Variable name : Profile -> string.
Variable proksch2015_calc : Profile -> Q -> list p2015_row.
Variable loewe2012_calc : Profile -> Q -> list l2012_row.

(** Python's [int] on a string. *)
Variable int_of_str : string -> exn + Z.

(** The helpers of [smpfunc.py].  [random_stretch] draws from the global
    random state and leaves it advanced. *)
Variable random_stretch : Z -> Q -> Q -> rng -> plan * rng.
Variable scale_profile : plan -> list Q -> list Q -> Q -> Q -> list Q * list value.
Variable extract_samples : list Q -> list value -> list Q -> Q -> list sample.
Variable calc_skill : list compare_row -> Q -> skill.

(** *** Inputs of the run *)
Variable cfg : settings.
Variable pit_summary : list pit_row.
Variable pit_density : list cutter_row.

(** The variables of the kernel the alignment reads and writes, the lines
    it prints, and the pickle on disk. *)
Record kernel : Type := mkKernel {
  np_random : rng;
  comparison_df : list comparison_row;
  min_scaling_coeff : list plan;
  random_tests : list plan;
  retrieved_skill : list skill;
  stdout : list string;
  smp_pit_comparison_pkl : list comparison_row
}.

Definition M (A : Type) : Type := kernel -> outcome A * kernel.

Definition ret {A} (a : A) : M A := fun k => (Ok a, k).

Definition bind {A B} (c : M A) (f : A -> M B) : M B :=
  fun k =>
    match c k with
    | (Ok a, k') => f a k'
    | (Raised e, k') => (Raised e, k')
    end.

(** A step that only computes or raises. *)
Definition lift {A} (c : exn + A) : M A :=
  fun k =>
    match c with
    | inl e => (Raised e, k)
    | inr a => (Ok a, k)
    end.

Definition modify (f : kernel -> kernel) : M unit := fun k => (Ok tt, f k).

Definition gets {A} (f : kernel -> A) : M A := fun k => (Ok (f k), k).

Notation "x <- c ;; k" := (bind c (fun x => k))
  (at level 100, c at next level, right associativity).
Notation "c ;; k" := (bind c (fun _ => k))
  (at level 100, right associativity).

(** [for x in l: body] *)
Fixpoint for_each {A} (body : A -> M unit) (l : list A) : M unit :=
  match l with
  | [] => ret tt
  | x :: l' => body x ;; for_each body l'
  end.

(** *** The first code cell: seeding *)
Definition seed_cell : M unit :=
  if paper_conditions cfg
  then modify (fun k => mkKernel (np_random_seed 2019) (comparison_df k)
                          (min_scaling_coeff k) (random_tests k)
                          (retrieved_skill k) (stdout k)
                          (smp_pit_comparison_pkl k))
  else ret tt.

(** *** The body of the alignment loop *)

(** Lines 197-200: the matching pit and its density measurements, with
    [relative_height] computed on the rationals. *)
Definition select_pit (smp : Profile) : exn + (list pit_row * list density_row) :=
  let? smp_file_num := int_of_str (str_suffix 4 (name smp)) in
  let pit_df := filter (fun p => (SMPF p =? smp_file_num)%Z) pit_summary in
  let? id0 := first_value (map ID pit_df) in
  let density_df :=
    filter (fun ic => String.eqb (cutter_ID (snd ic)) id0) (DataFrame pit_density) in
  (* an empty [density_df] has no maximum, and no row to assign it to *)
  let top_max :=
    match column_max (map (fun ic => TOP (snd ic)) density_df) with
    | Some m => m
    | None => 0
    end in
  inr (pit_df,
       map (fun ic => mkDensity (fst ic) (snd ic)
                        (Qabs ((TOP (snd ic) * 10 - CUTTER_SIZE cfg) - top_max * 10)))
           density_df).

(** Lines 203-219: the first guess at the microstructure, resampled to the
    thickness the pit measured. *)
Definition resample (smp : Profile) (pit_df : list pit_row) : exn + list smp_row :=
  let l2012 := loewe2012_calc smp (WINDOW_SIZE cfg) in
  let p2015 := proksch2015_calc smp (WINDOW_SIZE cfg) in
  let smp_profile_height := column_max (map p2015_distance p2015) in
  let smp_height_diff :=
    map (fun p => vlift2 Qminus (Some (MPD p * 1000)) smp_profile_height) pit_df in
  let? depth_array :=
    depth_axis (map (vlift2 Qplus (column_max (map p2015_distance p2015)))
                    smp_height_diff)
               (H_RESAMPLE cfg) in
  let? density_array :=
    np_interp depth_array (map p2015_distance p2015) (map P2015_density p2015) in
  let? force_array :=
    np_interp depth_array (map p2015_distance p2015) (map l2012_force_median l2012) in
  let? l_array :=
    np_interp depth_array (map p2015_distance p2015) (map L2012_L l2012) in
  inr (make_smp_df depth_array density_array force_array l_array).

(** Line 223: [np.ceil(len(smp_df.index)/L_RESAMPLE).astype(int)] *)
Definition num_sections (smp_df : list smp_row) : exn + Z :=
  if Qeq_bool (L_RESAMPLE cfg) 0 then inl ZeroDivisionError
  else inr (Qceiling (inject_Z (Z.of_nat (length smp_df)) / L_RESAMPLE cfg)).

(** Line 224: one call of [random_stretch] per element of
    [np.repeat(num_sections, NUM_TESTS)], in order, on the global random
    state. *)
Fixpoint draw_tests (xs : list Z) (g : rng) : list plan * rng :=
  match xs with
  | [] => ([], g)
  | x :: xs' =>
      let (w, g1) :=
        random_stretch x (MAX_STRETCH_OVERALL cfg) (MAX_STRETCH_LAYER cfg) g in
      let (ws, g2) := draw_tests xs' g1 in
      (w :: ws, g2)
  end.

Definition generate_tests (n : Z) : M (list plan) :=
  fun k =>
    let (tests, g) := draw_tests (repeat n (NUM_TESTS cfg)) (np_random k) in
    (Ok tests,
     mkKernel g (comparison_df k) (min_scaling_coeff k) tests
              (retrieved_skill k) (stdout k) (smp_pit_comparison_pkl k)).

(** Lines 226-228 for one candidate: scale the density profile, extract
    the samples at the cutter heights, put them next to the pit rows. *)
Definition compare_profile (smp_df : list smp_row) (density_df : list density_row)
           (test : plan) : list compare_row :=
  let '(dist, rho) :=
    scale_profile test (map distance smp_df) (map density smp_df)
                  (L_RESAMPLE cfg) (H_RESAMPLE cfg) in
  concat_axis1
    (extract_samples dist rho (map relative_height density_df) (CUTTER_SIZE cfg))
    density_df.

(** Line 229 for one candidate. *)
Definition skill_of (smp_df : list smp_row) (density_df : list density_row)
           (test : plan) : skill :=
  calc_skill (compare_profile smp_df density_df test) (CUTTER_SIZE cfg).

Definition set_retrieved_skill (sk : list skill) : M unit :=
  modify (fun k => mkKernel (np_random k) (comparison_df k) (min_scaling_coeff k)
                     (random_tests k) sk (stdout k) (smp_pit_comparison_pkl k)).

(** [min_scaling_coeff.append(w)] *)
Definition append_coeff (w : plan) : M unit :=
  modify (fun k => mkKernel (np_random k) (comparison_df k)
                     (min_scaling_coeff k ++ [w]) (random_tests k)
                     (retrieved_skill k) (stdout k) (smp_pit_comparison_pkl k)).

(** [min_scaling_coeff[-1]] *)
Definition last_coeff : M plan :=
  fun k =>
    match rev (min_scaling_coeff k) with
    | w :: _ => (Ok w, k)
    | [] => (Raised IndexError, k)
    end.

(** [comparison_df = comparison_df.append(result, ignore_index=True)] *)
Definition append_comparison (result : list comparison_row) : M unit :=
  modify (fun k => mkKernel (np_random k) (comparison_df k ++ result)
                     (min_scaling_coeff k) (random_tests k)
                     (retrieved_skill k) (stdout k) (smp_pit_comparison_pkl k)).

Definition print (line : string) : M unit :=
  modify (fun k => mkKernel (np_random k) (comparison_df k) (min_scaling_coeff k)
                     (random_tests k) (retrieved_skill k) (stdout k ++ [line])
                     (smp_pit_comparison_pkl k)).

(** Lines 197-241: the body of [for smp in smp_data]. *)
Definition align_profile (smp : Profile) : M unit :=
  pit <- lift (select_pit smp) ;;
  let '(pit_df, density_df) := pit in
  smp_df <- lift (resample smp pit_df) ;;
  n <- lift (num_sections smp_df) ;;
  tests <- generate_tests n ;;
  let compare_profiles := map (compare_profile smp_df density_df) tests in
  let skills := map (fun profile => calc_skill profile (CUTTER_SIZE cfg))
                    compare_profiles in
  set_retrieved_skill skills ;;
  let idx := min_scaling_idx (DataFrame skills) in
  i <- lift (int_of_array idx) ;;
  w <- lift (getitem tests i) ;;
  append_coeff w ;;
  coeff <- last_coeff ;;
  let '(dist, scaled_l) :=
    scale_profile coeff (map distance smp_df) (map smp_l smp_df)
                  (L_RESAMPLE cfg) (H_RESAMPLE cfg) in
  let '(dist, scaled_force_median) :=
    scale_profile coeff (map distance smp_df) (map smp_force_median smp_df)
                  (L_RESAMPLE cfg) (H_RESAMPLE cfg) in
  best <- lift (getitem compare_profiles i) ;;
  let result :=
    assign_l_force_median best
      (map mean_samp
           (extract_samples dist scaled_l (map relative_height density_df)
                            (CUTTER_SIZE cfg)))
      (map mean_samp
           (extract_samples dist scaled_force_median
                            (map relative_height density_df) (CUTTER_SIZE cfg))) in
  append_comparison result ;;
  print ("Finished with " ++ name smp).

(** *** The alignment cell *)

(** Lines 192-193: the two accumulators start empty. *)
Definition reset_accumulators : M unit :=
  modify (fun k => mkKernel (np_random k) [] [] (random_tests k)
                     (retrieved_skill k) (stdout k) (smp_pit_comparison_pkl k)).

(** [comparison_df.to_pickle(...)] *)
Definition to_pickle : M unit :=
  modify (fun k => mkKernel (np_random k) (comparison_df k) (min_scaling_coeff k)
                     (random_tests k) (retrieved_skill k) (stdout k)
                     (comparison_df k)).

(** [comparison_df = pd.read_pickle(...)], the file being there. *)
Definition read_pickle : M unit :=
  modify (fun k => mkKernel (np_random k) (smp_pit_comparison_pkl k)
                     (min_scaling_coeff k) (random_tests k)
                     (retrieved_skill k) (stdout k) (smp_pit_comparison_pkl k)).

(** *** Names for what a run leaves *)

(** The rows a pass appends to [comparison_df] when the plan [w] wins. *)
Definition aligned_rows (smp_df : list smp_row) (density_df : list density_row)
           (w : plan) : list comparison_row :=
  let heights := map relative_height density_df in
  let scaled_l :=
    scale_profile w (map distance smp_df) (map smp_l smp_df)
                  (L_RESAMPLE cfg) (H_RESAMPLE cfg) in
  let scaled_force_median :=
    scale_profile w (map distance smp_df) (map smp_force_median smp_df)
                  (L_RESAMPLE cfg) (H_RESAMPLE cfg) in
  assign_l_force_median (compare_profile smp_df density_df w)
    (map mean_samp
         (extract_samples (fst scaled_force_median) (snd scaled_l) heights
                          (CUTTER_SIZE cfg)))
    (map mean_samp
         (extract_samples (fst scaled_force_median) (snd scaled_force_median)
                          heights (CUTTER_SIZE cfg))).

(** A kernel that has run nothing yet: the random state is whatever NumPy
    took from the system, the pickle whatever is on disk. *)
Definition fresh_kernel (ambient : rng) (pkl : list comparison_row) : kernel :=
  mkKernel ambient [] [] [] [] [] pkl.

(** *** Facts about the helpers *)

Lemma Qlt_bool_iff x y : Qlt_bool x y = true <-> x < y.
Proof.
  unfold Qlt_bool. rewrite negb_true_iff. split; intros H.
  - apply Qnot_le_lt. intros C. apply Qle_bool_iff in C. congruence.
  - destruct (Qle_bool y x) eqn:E; [|reflexivity].
    apply Qle_bool_iff in E. exfalso. apply (Qlt_not_le _ _ H E).
Qed.

(** The comparison [sort_values] sorts by is the ranking of the selection
    rule. *)
Lemma skill_leb_iff a b : skill_leb a b = true <-> ranks_no_lower a b.
Proof.
  unfold skill_leb, skill_cmp, ranks_no_lower, key_cmp,
    r_higher, r_tie, rmse_corr_no_higher.
  destruct (r a) as [ra|], (r b) as [rb|],
    (rmse_corr a) as [ca|], (rmse_corr b) as [cb|];
    try destruct (Qcompare_spec rb ra) as [E1|E1|E1];
    try destruct (Qcompare_spec ca cb) as [E2|E2|E2];
    split; intros H; try reflexivity; try discriminate; try tauto;
    try (left; lra); try (right; split; [lra | lra]);
    try (right; split; [lra | exact I]);
    try (destruct H as [H | [H1 H2]]; lra);
    try (destruct H as [H | [H1 H2]]; tauto).
Qed.

Lemma ranks_no_lower_total a b : ranks_no_lower a b \/ ranks_no_lower b a.
Proof.
  unfold ranks_no_lower, r_higher, r_tie, rmse_corr_no_higher.
  destruct (r a) as [ra|], (r b) as [rb|],
    (rmse_corr a) as [ca|], (rmse_corr b) as [cb|];
    try (destruct (Q_dec ra rb) as [[H | H] | H]);
    try (destruct (Qlt_le_dec ca cb) as [H' | H']);
    try tauto;
    try (left; right; split; [lra | lra]);
    try (right; right; split; [lra | lra]);
    try (left; right; split; [lra | exact I]);
    try (right; right; split; [lra | exact I]).
Qed.

Lemma ranks_no_lower_trans a b c :
  ranks_no_lower a b -> ranks_no_lower b c -> ranks_no_lower a c.
Proof.
  unfold ranks_no_lower, r_higher, r_tie, rmse_corr_no_higher.
  destruct (r a) as [ra|], (r b) as [rb|], (r c) as [rc|],
    (rmse_corr a) as [ca|], (rmse_corr b) as [cb|], (rmse_corr c) as [cc|];
    intros [H1 | [H1 H1']] [H2 | [H2 H2']]; try tauto;
    try (left; lra); try (right; split; [lra | lra]);
    try (right; split; [lra | exact I]).
Qed.

Lemma skill_leb_total a b : skill_leb a b = false -> skill_leb b a = true.
Proof.
  intros H. apply skill_leb_iff.
  destruct (ranks_no_lower_total a b) as [C | C]; [|exact C].
  apply skill_leb_iff in C. congruence.
Qed.

(** The first row of the sorted table ranks at least as high as every
    row, and among the rows that tie with it, it has the least label. *)
Lemma sort_values_head (df : indexed skill) :
  StronglySorted lt (map fst df) -> df <> [] ->
  exists i s rest,
    sort_values df = (i, s) :: rest /\ In (i, s) df /\
    forall j t, In (j, t) df ->
      ranks_no_lower s t /\ (ranks_no_lower t s -> (i <= j)%nat).
Proof.
  induction df as [|[i0 s0] df IH]; intros Hs Hne; [congruence|].
  simpl in Hs. inversion Hs as [|? ? Hs' Hall]; subst.
  destruct df as [|y df'].
  - exists i0, s0, []. simpl. split; [reflexivity|]. split; [now left|].
    intros j t [H|[]]. inversion H; subst. split; [|lia].
    destruct (ranks_no_lower_total t t); assumption.
  - destruct (IH Hs' ltac:(congruence)) as (i & s & rest & Hsort & Hin & Hbest).
    change (sort_values ((i0, s0) :: y :: df'))
      with (insert_row (i0, s0) (sort_values (y :: df'))).
    rewrite Hsort. simpl insert_row.
    destruct (skill_leb s0 s) eqn:E.
    + exists i0, s0, ((i, s) :: rest). split; [reflexivity|]. split; [now left|].
      intros j t [H | H].
      * inversion H; subst. split; [|lia].
        destruct (ranks_no_lower_total t t); assumption.
      * split.
        -- apply ranks_no_lower_trans with s; [now apply skill_leb_iff|].
           now apply (Hbest j t).
        -- intros _. rewrite Forall_forall in Hall.
           apply Nat.lt_le_incl, Hall.
           change j with (fst (j, t)). now apply in_map.
    + exists i, s, (insert_row (i0, s0) rest). split; [reflexivity|].
      split; [now right|].
      intros j t [H | H].
      * inversion H; subst. split.
        -- apply skill_leb_iff. now apply skill_leb_total.
        -- intros C. apply skill_leb_iff in C. congruence.
      * now apply Hbest.
Qed.

Lemma In_combine_seq {A} (rows : list A) i x a :
  In (i, x) (combine (seq a (length rows)) rows) <->
  (a <= i)%nat /\ nth_error rows (i - a) = Some x.
Proof.
  revert a. induction rows as [|y rows IH]; intros a; simpl.
  - split; [tauto|]. intros [_ H]. destruct (i - a)%nat; discriminate.
  - rewrite IH. split.
    + intros [H | [H1 H2]].
      * inversion H; subst. rewrite Nat.sub_diag. split; [lia|reflexivity].
      * split; [lia|]. replace (i - a)%nat with (S (i - S a)) by lia. exact H2.
    + intros [H1 H2]. destruct (i - a)%nat as [|m] eqn:E.
      * left. inversion H2. f_equal. lia.
      * right. split; [lia|]. replace (i - S a)%nat with m by lia. exact H2.
Qed.

Lemma In_DataFrame {A} (rows : list A) i x :
  In (i, x) (DataFrame rows) <-> nth_error rows i = Some x.
Proof.
  unfold DataFrame. rewrite In_combine_seq, Nat.sub_0_r.
  split; [tauto | split; [lia | assumption]].
Qed.

Lemma DataFrame_labels {A} (rows : list A) :
  map fst (DataFrame rows) = seq 0 (length rows).
Proof.
  unfold DataFrame. generalize 0%nat.
  induction rows as [|y rows IH]; intros a; simpl; [reflexivity|].
  now rewrite IH.
Qed.

Lemma seq_sorted a n : StronglySorted lt (seq a n).
Proof.
  revert a. induction n as [|n IH]; intros a; simpl; constructor.
  - apply IH.
  - apply Forall_forall. intros x Hx. apply in_seq in Hx. lia.
Qed.

(** Line 232 on a table that has a row: one label comes out, the one of
    the first top-ranked row. *)
Lemma min_scaling_idx_spec (skills : list skill) :
  skills <> [] ->
  exists i s,
    min_scaling_idx (DataFrame skills) = [i] /\
    nth_error skills i = Some s /\
    forall j t, nth_error skills j = Some t ->
      ranks_no_lower s t /\ (ranks_no_lower t s -> (i <= j)%nat).
Proof.
  intros Hne.
  destruct (@sort_values_head (DataFrame skills)) as (i & s & rest & Hs & Hin & Hbest).
  - rewrite DataFrame_labels. apply seq_sorted.
  - destruct skills; [congruence|]. discriminate.
  - exists i, s. unfold min_scaling_idx, head1_index. rewrite Hs. simpl.
    split; [reflexivity|]. split; [now apply In_DataFrame|].
    intros j t Hj. apply Hbest. now apply In_DataFrame.
Qed.

(** *** One pass of the loop body *)

Lemma draw_tests_length xs g : length (fst (draw_tests xs g)) = length xs.
Proof.
  revert g. induction xs as [|x xs IH]; intros g; simpl; [reflexivity|].
  destruct (random_stretch x _ _ g) as [w g1].
  specialize (IH g1). destruct (draw_tests xs g1) as [ws g2].
  simpl in *. now rewrite IH.
Qed.

(** A pass whose preparation succeeds and that has a candidate to test
    runs to its end; this is the kernel it leaves. *)
Lemma align_profile_run smp k pit_df density_df smp_df n :
  select_pit smp = inr (pit_df, density_df) ->
  resample smp pit_df = inr smp_df ->
  num_sections smp_df = inr n ->
  NUM_TESTS cfg <> 0%nat ->
  let drawn := draw_tests (repeat n (NUM_TESTS cfg)) (np_random k) in
  let skills := map (skill_of smp_df density_df) (fst drawn) in
  exists i w,
    nth_error (fst drawn) i = Some w /\
    (forall j wj, nth_error (fst drawn) j = Some wj ->
       ranks_no_lower (skill_of smp_df density_df w) (skill_of smp_df density_df wj) /\
       (ranks_no_lower (skill_of smp_df density_df wj) (skill_of smp_df density_df w) ->
        (i <= j)%nat)) /\
    align_profile smp k =
      (Ok tt,
       mkKernel (snd drawn)
                (comparison_df k ++ aligned_rows smp_df density_df w)
                (min_scaling_coeff k ++ [w])
                (fst drawn) skills
                (stdout k ++ [("Finished with " ++ name smp)%string])
                (smp_pit_comparison_pkl k)).
Proof.
  intros Hpit Hres Hn Hnum. cbv zeta.
  assert (Hlen : length (fst (draw_tests (repeat n (NUM_TESTS cfg)) (np_random k)))
                 = NUM_TESTS cfg).
  { now rewrite draw_tests_length, repeat_length. }
  destruct (draw_tests (repeat n (NUM_TESTS cfg)) (np_random k))
    as [tests g] eqn:Hd.
  simpl fst in *. simpl snd.
  set (skills := map (skill_of smp_df density_df) tests).
  assert (Hne : skills <> []).
  { unfold skills. destruct tests; simpl in *; congruence. }
  destruct (min_scaling_idx_spec Hne) as (i & s & Hidx & Hs & Hbest).
  unfold skills in Hs. rewrite nth_error_map in Hs.
  destruct (nth_error tests i) as [w|] eqn:Hw; [|discriminate].
  simpl in Hs. inversion Hs; subst s. clear Hs.
  exists i, w. split; [exact Hw|]. split.
  - intros j wj Hj. apply (Hbest j). unfold skills.
    rewrite nth_error_map, Hj. reflexivity.
  - unfold align_profile, bind, lift. rewrite Hpit, Hres, Hn.
    unfold generate_tests. rewrite Hd.
    unfold set_retrieved_skill, append_coeff, last_coeff, append_comparison,
      print, modify.
    rewrite map_map. fold (skill_of smp_df density_df).
    unfold skills in Hidx.
    rewrite Hidx. simpl int_of_array. cbv iota beta.
    unfold getitem at 1. rewrite Hw.
    cbn [min_scaling_coeff np_random comparison_df random_tests retrieved_skill stdout smp_pit_comparison_pkl].
    rewrite rev_app_distr. simpl rev. simpl app at 1.
    unfold aligned_rows.
    destruct (scale_profile w (map distance smp_df) (map smp_l smp_df) _ _)
      as [d1 sl].
    destruct (scale_profile w (map distance smp_df) (map smp_force_median smp_df) _ _)
      as [d2 sf].
    unfold getitem. rewrite nth_error_map, Hw. simpl.
    reflexivity.
Qed.

(** *** Resampling *)

Lemma nth_pred_length_last (a : list Q) d : nth (length a - 1) a d = last a d.
Proof.
  induction a as [|x a IH]; [reflexivity|].
  destruct a as [|y a]; [reflexivity|].
  change (last (x :: y :: a) d) with (last (y :: a) d). rewrite <- IH.
  simpl. now rewrite Nat.sub_0_r.
Qed.

(** A query beyond the last sample point gets the last value. *)
Lemma interp_at_beyond xp fp x :
  length fp = length xp -> last xp 0 < x -> interp_at xp fp x = last fp 0.
Proof.
  intros Hlen Hx. unfold interp_at.
  rewrite nth_pred_length_last.
  apply Qlt_bool_iff in Hx. rewrite Hx.
  rewrite <- Hlen. apply nth_pred_length_last.
Qed.

Lemma np_interp_ok x xp fp :
  xp <> [] -> length fp = length xp ->
  np_interp x xp fp = inr (map (interp_at xp fp) x).
Proof.
  intros Hne Hlen. unfold np_interp. destruct xp; [congruence|].
  now rewrite Hlen, Nat.eqb_refl.
Qed.

Lemma make_smp_df_map (f g h : Q -> Q) d :
  make_smp_df d (map f d) (map g d) (map h d) =
  map (fun x => mkSmp x (f x) (g x) (h x)) d.
Proof.
  unfold make_smp_df.
  apply nth_error_ext. intros i.
  rewrite !nth_error_map.
  destruct (Nat.lt_ge_cases i (length d)) as [Hi | Hi].
  - rewrite nth_error_seq. rewrite (proj2 (Nat.ltb_lt _ _) Hi). simpl.
    destruct (nth_error d i) as [x|] eqn:E.
    + simpl. apply (nth_error_nth _ _ 0) in E as E0.
      rewrite (nth_indep (map f d) 0 (f 0)), (nth_indep (map g d) 0 (g 0)),
        (nth_indep (map h d) 0 (h 0)) by now rewrite length_map.
      now rewrite !map_nth, E0.
    + apply nth_error_None in E. lia.
  - rewrite (proj2 (nth_error_None _ _)) by now rewrite length_seq.
    rewrite (proj2 (nth_error_None d i) Hi). reflexivity.
Qed.

(** C7.  For a profile with at least one recorded depth, whose two derived
    tables have the same number of rows, matched to one pit, and with a
    step that is not zero, the resampling does not fail.  Every row of
    [smp_df] carries, at its own depth, the interpolation of the density,
    of the median force and of the structural length against the same
    sample points, so the four columns are aligned index by index on
    [depth_array].  A depth beyond the last recorded one gets the last
    recorded value of each quantity. *)
Theorem resample_flat_beyond_last_depth smp p :
  let p2015 := proksch2015_calc smp (WINDOW_SIZE cfg) in
  let l2012 := loewe2012_calc smp (WINDOW_SIZE cfg) in
  let xp := map p2015_distance p2015 in
  p2015 <> [] ->
  length l2012 = length p2015 ->
  ~ H_RESAMPLE cfg == 0 ->
  exists m,
    column_max xp = Some m /\
    let depth_array := np_arange 0 (m + (MPD p * 1000 - m)) (H_RESAMPLE cfg) in
    resample smp [p] =
      inr (map (fun x => mkSmp x
                           (interp_at xp (map P2015_density p2015) x)
                           (interp_at xp (map l2012_force_median l2012) x)
                           (interp_at xp (map L2012_L l2012) x))
               depth_array) /\
    forall x, last xp 0 < x ->
      interp_at xp (map P2015_density p2015) x = last (map P2015_density p2015) 0 /\
      interp_at xp (map l2012_force_median l2012) x
        = last (map l2012_force_median l2012) 0 /\
      interp_at xp (map L2012_L l2012) x = last (map L2012_L l2012) 0.
Proof.
  intros p2015 l2012 xp Hne Hlen Hstep.
  assert (Hxp : xp <> []).
  { unfold xp. destruct p2015; [congruence | discriminate]. }
  destruct (column_max xp) as [m|] eqn:Hm.
  2:{ destruct xp; [congruence | discriminate]. }
  exists m. split; [reflexivity|]. split.
  - unfold resample. fold p2015 l2012 xp. rewrite Hm.
    simpl map. unfold depth_axis. simpl scalar_of_array. cbv iota beta.
    destruct (Qeq_bool (H_RESAMPLE cfg) 0) eqn:E.
    { apply Qeq_bool_iff in E. contradiction. }
    unfold bindE at 1.
    rewrite !np_interp_ok; try assumption;
      try (unfold xp; now rewrite !length_map).
    all: try (unfold xp; rewrite !length_map; exact Hlen).
    simpl bindE. now rewrite make_smp_df_map.
  - intros x Hx. repeat split; apply interp_at_beyond; try assumption;
      unfold xp; rewrite !length_map; auto.
Qed.

(** *** Selection of the best candidate *)

(** C1.  For a profile whose pit is found and whose profile is resampled,
    with at least one candidate to test, the pass runs to its end and the
    plan it appends to [min_scaling_coeff] is a candidate [w] of the
    [NUM_TESTS] plans drawn, the skill table holds the skill of every
    candidate, and every candidate's skill ranks no higher than the one of
    [w]: [w] has a higher correlation [r], or the same [r] and a
    bias-corrected RMSE that is not higher (NaN last, as pandas sorts).
    Among the candidates that tie with it on both, [w] is the first. *)
Theorem top_ranked_candidate_selected smp k pit_df density_df smp_df n :
  select_pit smp = inr (pit_df, density_df) ->
  resample smp pit_df = inr smp_df ->
  num_sections smp_df = inr n ->
  NUM_TESTS cfg <> 0%nat ->
  exists k' i w,
    align_profile smp k = (Ok tt, k') /\
    length (random_tests k') = NUM_TESTS cfg /\
    retrieved_skill k' = map (skill_of smp_df density_df) (random_tests k') /\
    nth_error (random_tests k') i = Some w /\
    min_scaling_coeff k' = min_scaling_coeff k ++ [w] /\
    forall j wj, nth_error (random_tests k') j = Some wj ->
      ranks_no_lower (skill_of smp_df density_df w) (skill_of smp_df density_df wj) /\
      (ranks_no_lower (skill_of smp_df density_df wj) (skill_of smp_df density_df w) ->
       (i <= j)%nat).
Proof.
  intros Hpit Hres Hn Hnum.
  destruct (align_profile_run smp k Hpit Hres Hn Hnum) as (i & w & Hw & Hbest & Hrun).
  eexists. exists i, w. split; [exact Hrun|]. simpl.
  split; [now rewrite draw_tests_length, repeat_length|].
  split; [reflexivity|]. split; [exact Hw|]. split; [reflexivity|]. exact Hbest.
Qed.

(** *** The rows a pass appends *)

Lemma nth_error_combine_seq {A} (rows : list A) a i :
  nth_error (combine (seq a (length rows)) rows) i
  = option_map (fun x => ((a + i)%nat, x)) (nth_error rows i).
Proof.
  revert a i. induction rows as [|x rows IH]; intros a [|i]; simpl;
    try reflexivity.
  - now rewrite Nat.add_0_r.
  - rewrite IH. now rewrite Nat.add_succ_r.
Qed.

(** [assign] keeps the rows of the table it is called on and, row by row,
    gives each the values its two series have at that index (NaN where a
    series is shorter). *)
Lemma assign_l_force_median_rows df s1 s2 :
  map base (assign_l_force_median df s1 s2) = df /\
  forall j row,
    nth_error (assign_l_force_median df s1 s2) j = Some row ->
    l row = nth j s1 None /\ force_median row = nth j s2 None.
Proof.
  unfold assign_l_force_median, DataFrame. split.
  - rewrite map_map. cbn [base].
    generalize 0%nat. induction df as [|c df IH]; intros a; simpl;
      [reflexivity|]. now rewrite IH.
  - intros j row. rewrite nth_error_map, nth_error_combine_seq.
    destruct (nth_error df j) as [c|]; [|discriminate].
    cbn [option_map fst snd Nat.add]. intros H.
    assert (E : row = mkComparison c (nth j s1 None) (nth j s2 None))
      by congruence.
    rewrite E. split; reflexivity.
Qed.

Lemma nth_mean_samp (samples : list sample) j :
  nth j (map mean_samp samples) None
  = match nth_error samples j with
    | Some s => mean_samp s
    | None => None
    end.
Proof.
  revert j. induction samples as [|s samples IH]; intros [|j]; simpl;
    try reflexivity. apply IH.
Qed.

(** C3.  The plan [w] the pass retains is the candidate at the index
    [sort_values] puts first, and the rows the pass appends to
    [comparison_df] are built from three calls of [scale_profile], all on
    [w].  The rows themselves are the rows of the comparison that was scored
    for [w] (the density samples next to the pit rows), in their order; row
    [j] has for [l] the mean of sample [j] of the structural length scaled
    with [w], and for [force_median] the mean of sample [j] of the median
    force scaled with [w] (NaN where there is no such sample).  (The cell
    keeps one name, [dist], for the depth axis of both later calls, so [l]
    is extracted along the axis returned with the median force.) *)
Theorem winning_plan_reapplied smp k pit_df density_df smp_df n :
  select_pit smp = inr (pit_df, density_df) ->
  resample smp pit_df = inr smp_df ->
  num_sections smp_df = inr n ->
  NUM_TESTS cfg <> 0%nat ->
  exists k' i w,
    align_profile smp k = (Ok tt, k') /\
    min_scaling_idx (DataFrame (retrieved_skill k')) = [i] /\
    nth_error (random_tests k') i = Some w /\
    last (min_scaling_coeff k') [] = w /\
    let heights := map relative_height density_df in
    let scaled x :=
      scale_profile w (map distance smp_df) (map x smp_df)
                    (L_RESAMPLE cfg) (H_RESAMPLE cfg) in
    let scored :=
      concat_axis1
        (extract_samples (fst (scaled density)) (snd (scaled density))
                         heights (CUTTER_SIZE cfg))
        density_df in
    let l_samples :=
      extract_samples (fst (scaled smp_force_median)) (snd (scaled smp_l))
                      heights (CUTTER_SIZE cfg) in
    let force_samples :=
      extract_samples (fst (scaled smp_force_median))
                      (snd (scaled smp_force_median))
                      heights (CUTTER_SIZE cfg) in
    exists result,
      comparison_df k' = comparison_df k ++ result /\
      map base result = scored /\
      forall j row,
        nth_error result j = Some row ->
        l row = match nth_error l_samples j with
                | Some s => mean_samp s
                | None => None
                end /\
        force_median row = match nth_error force_samples j with
                           | Some s => mean_samp s
                           | None => None
                           end.
Proof.
  intros Hpit Hres Hn Hnum.
  destruct (align_profile_run smp k Hpit Hres Hn Hnum) as (i & w & Hw & Hbest & Hrun).
  eexists. exists i, w. split; [exact Hrun|]. simpl.
  assert (Hne : map (skill_of smp_df density_df)
                    (fst (draw_tests (repeat n (NUM_TESTS cfg)) (np_random k))) <> []).
  { destruct (fst (draw_tests (repeat n (NUM_TESTS cfg)) (np_random k)));
      [destruct i; discriminate | discriminate]. }
  destruct (min_scaling_idx_spec Hne) as (i' & s & Hidx & Hs & Hfirst).
  assert (i' = i).
  { rewrite nth_error_map in Hs.
    destruct (nth_error _ i') as [w'|] eqn:Hw'; [|discriminate].
    simpl in Hs. inversion Hs; subst s. clear Hs.
    destruct (Hbest i' w' Hw') as [Ha Hb].
    destruct (Hfirst i (skill_of smp_df density_df w)) as [Hc Hd].
    { now rewrite nth_error_map, Hw. }
    specialize (Hb Hc). specialize (Hd Ha). lia. }
  subst i'. split; [exact Hidx|]. split; [exact Hw|].
  split; [apply last_last|].
  eexists. split; [reflexivity|].
  unfold aligned_rows.
  match goal with
  | |- map base (assign_l_force_median ?df ?s1 ?s2) = _ /\ _ =>
      destruct (assign_l_force_median_rows df s1 s2) as [Hbase Hrows]
  end.
  split.
  - rewrite Hbase. unfold compare_profile.
    destruct (scale_profile w (map distance smp_df) (map density smp_df) _ _).
    reflexivity.
  - intros j row Hrow. destruct (Hrows j row Hrow) as [Hl Hf].
    rewrite Hl, Hf, !nth_mean_samp. split; reflexivity.
Qed.

(** *** The batch loop *)

Lemma for_each_app {A} (body : A -> M unit) l1 l2 k :
  for_each body (l1 ++ l2) k =
  match for_each body l1 k with
  | (Ok _, k1) => for_each body l2 k1
  | (Raised e, k1) => (Raised e, k1)
  end.
Proof.
  revert k. induction l1 as [|x l1 IH]; intros k; simpl; [reflexivity|].
  unfold bind. destruct (body x k) as [[[]|e] k1]; [apply IH | reflexivity].
Qed.

(** A profile without a matching snow-pit record stops its pass with an
    [IndexError], before the kernel is touched. *)
Lemma missing_pit_raises smp num k :
  int_of_str (str_suffix 4 (name smp)) = inr num ->
  (forall p, In p pit_summary -> SMPF p <> num) ->
  align_profile smp k = (Raised IndexError, k).
Proof.
  intros Hnum Hno. unfold align_profile, bind, lift, select_pit.
  rewrite Hnum. simpl bindE.
  assert (E : filter (fun p => (SMPF p =? num)%Z) pit_summary = []).
  { induction pit_summary as [|p l IH]; simpl; [reflexivity|].
    destruct (Z.eqb_spec (SMPF p) num) as [C|C].
    - exfalso. apply (Hno p); [now left | exact C].
    - apply IH. intros q Hq. apply Hno. now right. }
  rewrite E. reflexivity.
Qed.

(** C5, as the code has it.  The loop has no handler around a pass.  When
    the passes before a profile succeed and its own pass raises, the loop
    stops with that exception in the kernel the failed pass left, whatever
    profiles follow: they are not processed.  A profile without a matching
    snow-pit record is such a case ([IndexError]).  Only a pass that
    succeeds lets the loop go on with the profiles after it. *)
Theorem failing_profile_stops_the_batch before smp after k k1 :
  for_each align_profile before k = (Ok tt, k1) ->
  (forall e k2, align_profile smp k1 = (Raised e, k2) ->
     for_each align_profile (before ++ smp :: after) k = (Raised e, k2)) /\
  (forall num, int_of_str (str_suffix 4 (name smp)) = inr num ->
     (forall p, In p pit_summary -> SMPF p <> num) ->
     for_each align_profile (before ++ smp :: after) k = (Raised IndexError, k1)) /\
  (forall k2, align_profile smp k1 = (Ok tt, k2) ->
     for_each align_profile (before ++ smp :: after) k =
     for_each align_profile after k2).
Proof.
  intros Hbefore.
  assert (G : for_each align_profile (before ++ smp :: after) k =
              match align_profile smp k1 with
              | (Ok _, k2) => for_each align_profile after k2
              | (Raised e, k2) => (Raised e, k2)
              end).
  { rewrite for_each_app, Hbefore. simpl. unfold bind.
    destruct (align_profile smp k1) as [[[]|e] k2]; reflexivity. }
  split; [|split].
  - intros e k2 H. now rewrite G, H.
  - intros num Hnum Hno. now rewrite G, (missing_pit_raises smp k1 Hnum Hno).
  - intros k2 H. now rewrite G, H.
Qed.

(** *** What a pass does to the accumulators *)

(** The line a finished pass prints. *)
Definition finished_line (smp : Profile) : string :=
  ("Finished with " ++ name smp)%string.

Lemma getitem_map {A B} (f : A -> B) a i x :
  getitem a i = inr x -> getitem (map f a) i = inr (f x).
Proof.
  unfold getitem. rewrite nth_error_map.
  destruct (nth_error a i); intros H; inversion H. reflexivity.
Qed.

Lemma getitem_In {A} (a : list A) i x : getitem a i = inr x -> In x a.
Proof.
  unfold getitem. destruct (nth_error a i) eqn:E; intros H; inversion H; subst.
  eapply nth_error_In; eauto.
Qed.

(** Either a pass goes wrong before it touches an accumulator, or it appends
    one plan, its rows and one line. *)
Lemma align_profile_effect smp k :
  match align_profile smp k with
  | (Ok _, k') =>
      exists w rows,
        In w (random_tests k') /\
        min_scaling_coeff k' = min_scaling_coeff k ++ [w] /\
        comparison_df k' = comparison_df k ++ rows /\
        stdout k' = stdout k ++ [finished_line smp] /\
        smp_pit_comparison_pkl k' = smp_pit_comparison_pkl k
  | (Raised _, k') =>
      min_scaling_coeff k' = min_scaling_coeff k /\
      comparison_df k' = comparison_df k /\
      stdout k' = stdout k /\
      smp_pit_comparison_pkl k' = smp_pit_comparison_pkl k
  end.
Proof.
  unfold align_profile, bind, lift.
  destruct (select_pit smp) as [e|[pit_df density_df]]; [now repeat split|].
  destruct (resample smp pit_df) as [e|smp_df]; [now repeat split|].
  destruct (num_sections smp_df) as [e|n]; [now repeat split|].
  unfold generate_tests.
  destruct (draw_tests (repeat n (NUM_TESTS cfg)) (np_random k)) as [tests g].
  unfold set_retrieved_skill, append_coeff, last_coeff, append_comparison,
    print, modify.
  destruct (int_of_array _) as [e|i]; [now repeat split|].
  destruct (getitem tests i) as [e|w] eqn:Hw; [now repeat split|].
  cbn [min_scaling_coeff np_random comparison_df random_tests retrieved_skill
       stdout smp_pit_comparison_pkl].
  rewrite rev_app_distr. simpl rev. simpl app at 1. cbv beta iota.
  destruct (scale_profile w (map distance smp_df) (map smp_l smp_df) _ _)
    as [d1 sl].
  destruct (scale_profile w (map distance smp_df) (map smp_force_median smp_df) _ _)
    as [d2 sf].
  rewrite (getitem_map _ _ _ Hw). simpl.
  eexists w, _. split; [now apply (getitem_In _ _ Hw)|].
  repeat split.
Qed.

(** X1.  A pass that raises has not touched the accumulators: the plans
    kept, the rows of [comparison_df] and the lines printed are as they
    were before it (only the random state and the last candidates and
    skills may have moved). *)
Theorem failed_pass_keeps_accumulators smp k e k' :
  align_profile smp k = (Raised e, k') ->
  min_scaling_coeff k' = min_scaling_coeff k /\
  comparison_df k' = comparison_df k /\
  stdout k' = stdout k.
Proof.
  intros H. pose proof (align_profile_effect smp k) as G. rewrite H in G.
  tauto.
Qed.

(** X2.  Whatever way the loop ends, it has processed a prefix of the
    batch: the lines printed name the profiles of that prefix, in order, and
    one plan and no more was kept for each.  The prefix is the whole batch
    exactly when the loop did not raise. *)
Theorem batch_processes_a_prefix (smp_data : list Profile) k :
  exists n,
    (n <= length smp_data)%nat /\
    stdout (snd (for_each align_profile smp_data k))
      = stdout k ++ map finished_line (firstn n smp_data) /\
    length (min_scaling_coeff (snd (for_each align_profile smp_data k)))
      = (length (min_scaling_coeff k) + n)%nat /\
    (fst (for_each align_profile smp_data k) = Ok tt <-> n = length smp_data).
Proof.
  revert k. induction smp_data as [|smp l IH]; intros k.
  - exists 0%nat. simpl. rewrite app_nil_r, Nat.add_0_r. repeat split; lia.
  - simpl for_each. unfold bind at 1 2 3.
    pose proof (align_profile_effect smp k) as G.
    destruct (align_profile smp k) as [[[]|e] k1]; cbv beta iota.
    + destruct G as (w & rows & _ & Hc & _ & Hs & _).
      destruct (IH k1) as (n & Hn & Hout & Hlen & Hok).
      exists (S n). cbn [length firstn map]. split; [lia|]. split; [|split].
      * rewrite Hout, Hs, <- app_assoc. reflexivity.
      * rewrite Hlen, Hc, length_app. simpl. lia.
      * rewrite Hok. split; intros; lia.
    + destruct G as (Hc & _ & Hs & _).
      exists 0%nat. cbn [length firstn map fst snd].
      rewrite app_nil_r, Nat.add_0_r, Hc, Hs.
      repeat split; try lia; try discriminate.
Qed.

(** X3.  With no candidate to test ([NUM_TESTS = 0]) a pass whose pit is
    found and whose profile is resampled stops with the [TypeError] of
    [int(...)] on the empty index array; the candidates and the skill table
    are left empty and nothing else has moved. *)
Theorem no_candidate_raises smp k pit_df density_df smp_df n :
  select_pit smp = inr (pit_df, density_df) ->
  resample smp pit_df = inr smp_df ->
  num_sections smp_df = inr n ->
  NUM_TESTS cfg = 0%nat ->
  align_profile smp k =
    (Raised TypeError,
     mkKernel (np_random k) (comparison_df k) (min_scaling_coeff k) [] []
              (stdout k) (smp_pit_comparison_pkl k)).
Proof.
  intros Hpit Hres Hn Hnum.
  unfold align_profile, bind, lift. rewrite Hpit, Hres, Hn.
  unfold generate_tests. rewrite Hnum. reflexivity.
Qed.

(** *** What the resampling keeps *)

Lemma np_interp_inv x xp fp y :
  np_interp x xp fp = inr y ->
  xp <> [] /\ length fp = length xp /\ y = map (interp_at xp fp) x.
Proof.
  unfold np_interp. destruct xp as [|a xp]; [discriminate|].
  destruct (Nat.eqb_spec (length fp) (length (a :: xp))) as [E | E];
    [|discriminate].
  intros H. inversion H. repeat split; [discriminate | exact E].
Qed.

(** What a resampling that succeeds has computed. *)
Lemma resample_inv smp p smp_df :
  resample smp [p] = inr smp_df ->
  let p2015 := proksch2015_calc smp (WINDOW_SIZE cfg) in
  let l2012 := loewe2012_calc smp (WINDOW_SIZE cfg) in
  let xp := map p2015_distance p2015 in
  exists m,
    column_max xp = Some m /\
    ~ H_RESAMPLE cfg == 0 /\
    length l2012 = length p2015 /\
    smp_df =
      map (fun x => mkSmp x (interp_at xp (map P2015_density p2015) x)
                            (interp_at xp (map l2012_force_median l2012) x)
                            (interp_at xp (map L2012_L l2012) x))
          (np_arange 0 (m + (MPD p * 1000 - m)) (H_RESAMPLE cfg)).
Proof.
  intros H p2015 l2012 xp. unfold resample in H. fold p2015 l2012 xp in H.
  destruct (column_max xp) as [m|] eqn:Hm; [|discriminate].
  cbn [map vlift2] in H. unfold depth_axis in H. cbn [scalar_of_array] in H.
  destruct (Qeq_bool (H_RESAMPLE cfg) 0) eqn:Hstep; [discriminate|].
  unfold bindE at 1 in H.
  destruct (np_interp _ xp (map P2015_density p2015)) as [|d] eqn:E1;
    [discriminate|].
  unfold bindE at 1 in H.
  destruct (np_interp _ xp (map l2012_force_median l2012)) as [|f] eqn:E2;
    [discriminate|].
  unfold bindE at 1 in H.
  destruct (np_interp _ xp (map L2012_L l2012)) as [|l0] eqn:E3;
    [discriminate|].
  unfold bindE in H.
  apply np_interp_inv in E1 as (_ & _ & ->).
  apply np_interp_inv in E2 as (_ & L2 & ->).
  apply np_interp_inv in E3 as (_ & _ & ->).
  rewrite make_smp_df_map in H.
  exists m. split; [reflexivity|]. split.
  - intros C. apply Qeq_bool_iff in C. congruence.
  - split; [|congruence].
    unfold xp in L2. now rewrite !length_map in L2.
Qed.

Lemma sorted_nth_lt (xp : list Q) i j :
  StronglySorted Qlt xp -> (i < j < length xp)%nat -> nth i xp 0 < nth j xp 0.
Proof.
  intros Hs. revert i j. induction Hs as [|a xp Hs IH Hall]; intros i j Hij.
  - simpl in Hij. lia.
  - destruct j as [|j]; [lia|]. simpl in Hij. destruct i as [|i]; simpl.
    + rewrite Forall_forall in Hall. apply Hall. apply nth_In. lia.
    + apply IH. lia.
Qed.

Lemma sorted_nth_le (xp : list Q) i j :
  StronglySorted Qlt xp -> (i <= j < length xp)%nat -> nth i xp 0 <= nth j xp 0.
Proof.
  intros Hs Hij. destruct (Nat.eq_dec i j) as [-> | Hne]; [lra|].
  apply Qlt_le_weak, sorted_nth_lt; [assumption | lia].
Qed.

Lemma Qlt_bool_false_iff x y : Qlt_bool x y = false <-> y <= x.
Proof.
  destruct (Qlt_bool x y) eqn:E.
  - apply Qlt_bool_iff in E. split; [discriminate | lra].
  - split; [|reflexivity]. intros _.
    destruct (Qlt_le_dec x y) as [C | C]; [|exact C].
    apply Qlt_bool_iff in C. congruence.
Qed.

Lemma leading_le_at_sample (xp : list Q) j x :
  StronglySorted Qlt xp -> (j < length xp)%nat -> x == nth j xp 0 ->
  leading_le x xp = S j.
Proof.
  intros Hs. revert j. induction Hs as [|a xp Hs IH Hall]; intros j Hj Hx.
  - simpl in Hj. lia.
  - simpl. rewrite Forall_forall in Hall. destruct j as [|j]; simpl in Hx.
    + assert (E : Qle_bool a x = true) by (apply Qle_bool_iff; lra).
      rewrite E. f_equal. destruct xp as [|b xp]; [reflexivity|]. simpl.
      assert (a < b) by (apply Hall; now left).
      destruct (Qle_bool b x) eqn:E'; [|reflexivity].
      apply Qle_bool_iff in E'. lra.
    + simpl in Hj.
      assert (a < nth j xp 0) by (apply Hall, nth_In; lia).
      assert (E : Qle_bool a x = true) by (apply Qle_bool_iff; lra).
      rewrite E. f_equal. apply IH; [lia | exact Hx].
Qed.

(** A query at a sample point gets the value recorded there. *)
Lemma interp_at_sample xp fp j x :
  StronglySorted Qlt xp -> (j < length xp)%nat -> x == nth j xp 0 ->
  interp_at xp fp x = nth j fp 0.
Proof.
  intros Hs Hj Hx. unfold interp_at.
  assert (H1 : Qlt_bool (nth (length xp - 1) xp 0) x = false).
  { apply Qlt_bool_false_iff. rewrite Hx. apply sorted_nth_le; [assumption | lia]. }
  assert (H2 : Qlt_bool x (nth 0 xp 0) = false).
  { apply Qlt_bool_false_iff. rewrite Hx. apply sorted_nth_le; [assumption | lia]. }
  rewrite H1, H2, (leading_le_at_sample Hs Hj Hx).
  replace (S j - 1)%nat with j by lia.
  destruct (j =? length xp - 1)%nat; [reflexivity|].
  assert (E : Qeq_bool (nth j xp 0) x = true) by (apply Qeq_bool_iff; lra).
  now rewrite E.
Qed.

(** A query before the first sample point gets the first value. *)
Lemma interp_at_before xp fp x :
  StronglySorted Qlt xp -> xp <> [] -> x < nth 0 xp 0 ->
  interp_at xp fp x = nth 0 fp 0.
Proof.
  intros Hs Hne Hx. unfold interp_at.
  assert (Hlen : (0 < length xp)%nat) by (destruct xp; [congruence | simpl; lia]).
  assert (H1 : Qlt_bool (nth (length xp - 1) xp 0) x = false).
  { apply Qlt_bool_false_iff.
    pose proof (@sorted_nth_le xp 0 (length xp - 1) Hs ltac:(lia)). lra. }
  rewrite H1. apply Qlt_bool_iff in Hx. now rewrite Hx.
Qed.

Lemma nth_map_of_nth_error {A} (f : A -> Q) (a : list A) j x :
  nth_error a j = Some x -> nth j (map f a) 0 = f x.
Proof.
  intros H. apply nth_error_nth. now rewrite nth_error_map, H.
Qed.

(** X6.  With recorded depths that increase strictly, the resampling keeps
    what was recorded: a row of [smp_df] whose depth is a recorded depth
    carries the density, median force and structural length recorded there,
    and a row above the first recorded depth carries the first recorded
    values. *)
Theorem resampling_keeps_recorded_values smp p smp_df :
  resample smp [p] = inr smp_df ->
  let p2015 := proksch2015_calc smp (WINDOW_SIZE cfg) in
  let l2012 := loewe2012_calc smp (WINDOW_SIZE cfg) in
  StronglySorted Qlt (map p2015_distance p2015) ->
  (forall row j q l0,
     In row smp_df ->
     nth_error p2015 j = Some q -> nth_error l2012 j = Some l0 ->
     distance row == p2015_distance q ->
     density row = P2015_density q /\
     smp_force_median row = l2012_force_median l0 /\
     smp_l row = L2012_L l0) /\
  (forall row q l0,
     In row smp_df ->
     nth_error p2015 0 = Some q -> nth_error l2012 0 = Some l0 ->
     distance row < p2015_distance q ->
     density row = P2015_density q /\
     smp_force_median row = l2012_force_median l0 /\
     smp_l row = L2012_L l0).
Proof.
  intros H p2015 l2012 Hs.
  destruct (resample_inv _ _ H) as (m & Hm & _ & Hlen & ->).
  fold p2015 l2012. split.
  - intros row j q l0 Hrow Hq Hl Hd.
    apply in_map_iff in Hrow. destruct Hrow as (x & <- & _).
    cbn [distance density smp_force_median smp_l] in *.
    assert (Hj : (j < length (map p2015_distance p2015))%nat).
    { rewrite length_map. apply nth_error_Some. congruence. }
    assert (Hx : x == nth j (map p2015_distance p2015) 0).
    { now rewrite (nth_map_of_nth_error _ _ _ Hq). }
    rewrite !(interp_at_sample _ Hs Hj Hx).
    now rewrite (nth_map_of_nth_error _ _ _ Hq),
      !(nth_map_of_nth_error _ _ _ Hl).
  - intros row q l0 Hrow Hq Hl Hd.
    apply in_map_iff in Hrow. destruct Hrow as (x & <- & _).
    cbn [distance density smp_force_median smp_l] in *.
    assert (Hne : map p2015_distance p2015 <> []).
    { destruct p2015; [discriminate | discriminate]. }
    assert (Hx : x < nth 0 (map p2015_distance p2015) 0).
    { now rewrite (nth_map_of_nth_error _ _ _ Hq). }
    rewrite !(interp_at_before _ Hs Hne Hx).
    now rewrite (nth_map_of_nth_error _ _ _ Hq),
      !(nth_map_of_nth_error _ _ _ Hl).
Qed.

(** *** The cells around the loop *)

(** The data directory, [os.path.join], and [load_smp], which reads a file
    and preprocesses it with snowmicropyn and [smpfunc]. *)
Variable input_data : string.
Variable path_join : string -> string -> string.
Variable load_smp : string -> Profile.

(** Python's ['%0.3f' % np.round(np.abs(np.array(totals)).mean(), 3)] on
    the totals of the plans kept. *)
Variable format_mean_abs : list Q -> string.

(** *** The loading cell *)

(** [file.endswith(suffix)] *)
Definition endswith (suffix file : string) : bool :=
  String.eqb (str_suffix (String.length suffix) file) suffix.

Definition string_of_nat (n : nat) : string :=
  DecimalString.NilZero.string_of_uint (Nat.to_uint n).

(** Lines 104-111: [listing] is what [os.listdir(input_data)] returned, in
    the order it returned it, which Python leaves open.  The profiles are
    loaded in that order. *)
Definition load_cell (listing : list string) : M (list Profile) :=
  let file_list :=
    map (path_join input_data) (filter (endswith ".pnt") listing) in
  let smp_data := map load_smp file_list in
  print ("SMP calibration profiles loaded: " ++ string_of_nat (length smp_data)) ;;
  ret smp_data.

(** Lines 243-247: the summary of the scaling, printed when the loop has
    ended.  ([smp_thickness], computed first, is not used.) *)
Definition scaling_summary : M unit :=
  coeffs <- gets min_scaling_coeff ;;
  let scaling_total := map (fun s => fold_right Qplus 0 s) coeffs in
  print ("Average scaling: " ++ format_mean_abs scaling_total).

(** Lines 192-254. *)
Definition alignment_cell (smp_data : list Profile) : M unit :=
  reset_accumulators ;;
  if skip_alignment cfg then read_pickle
  else (for_each align_profile smp_data ;; scaling_summary ;; to_pickle).

(** The cells the alignment depends on, in the order of the notebook:
    seeding, loading, alignment.  (The cells between the last two display
    and print the tables and assign nothing.) *)
Definition seed_load_align (listing : list string) : M unit :=
  seed_cell ;;
  smp_data <- load_cell listing ;;
  alignment_cell smp_data.

(** *** Seeding *)

(** What a pass reads of the kernel it starts in: the random state and the
    two accumulators. *)
Definition same_search (ka kb : kernel) : Prop :=
  np_random ka = np_random kb /\
  comparison_df ka = comparison_df kb /\
  min_scaling_coeff ka = min_scaling_coeff kb.

(** The candidates and skills two runs leave, from [ka] to [ka'] and from
    [kb] to [kb']: the same lists, unless neither run got as far as drawing
    candidates and each kernel has the lists it had. *)
Definition same_candidates (ka kb ka' kb' : kernel) : Prop :=
  (random_tests ka' = random_tests kb' /\
   retrieved_skill ka' = retrieved_skill kb') \/
  (random_tests ka' = random_tests ka /\
   retrieved_skill ka' = retrieved_skill ka /\
   random_tests kb' = random_tests kb /\
   retrieved_skill kb' = retrieved_skill kb).

(** A pass run in two kernels that agree on what it reads: the same
    outcome, the same candidates, skills, plan and rows, whatever else the
    kernels hold. *)
Lemma align_profile_agree smp ka kb :
  same_search ka kb ->
  fst (align_profile smp ka) = fst (align_profile smp kb) /\
  same_search (snd (align_profile smp ka)) (snd (align_profile smp kb)) /\
  same_candidates ka kb (snd (align_profile smp ka)) (snd (align_profile smp kb)) /\
  smp_pit_comparison_pkl (snd (align_profile smp ka)) = smp_pit_comparison_pkl ka /\
  smp_pit_comparison_pkl (snd (align_profile smp kb)) = smp_pit_comparison_pkl kb.
Proof.
  intros (Hr & Hc & Hm).
  unfold align_profile, bind, lift.
  destruct (select_pit smp) as [e|[pit_df density_df]].
  { cbn [fst snd]. split; [reflexivity|]. split; [now repeat split|].
    split; [right; now repeat split|]. now split. }
  destruct (resample smp pit_df) as [e|smp_df].
  { cbn [fst snd]. split; [reflexivity|]. split; [now repeat split|].
    split; [right; now repeat split|]. now split. }
  destruct (num_sections smp_df) as [e|n].
  { cbn [fst snd]. split; [reflexivity|]. split; [now repeat split|].
    split; [right; now repeat split|]. now split. }
  unfold generate_tests. rewrite <- Hr.
  destruct (draw_tests (repeat n (NUM_TESTS cfg)) (np_random ka)) as [tests g].
  unfold set_retrieved_skill, append_coeff, last_coeff, append_comparison,
    print, modify.
  destruct (int_of_array _) as [e|i].
  { cbn [fst snd np_random comparison_df min_scaling_coeff random_tests
         retrieved_skill smp_pit_comparison_pkl].
    split; [reflexivity|]. split; [now repeat split|].
    split; [left; now split|]. now split. }
  destruct (getitem tests i) as [e|w] eqn:Hw.
  { cbn [fst snd np_random comparison_df min_scaling_coeff random_tests
         retrieved_skill smp_pit_comparison_pkl].
    split; [reflexivity|]. split; [now repeat split|].
    split; [left; now split|]. now split. }
  cbn [min_scaling_coeff np_random comparison_df random_tests retrieved_skill
       stdout smp_pit_comparison_pkl].
  rewrite !rev_app_distr. simpl rev. cbn [app]. cbv beta iota.
  destruct (scale_profile w (map distance smp_df) (map smp_l smp_df) _ _)
    as [d1 sl].
  destruct (scale_profile w (map distance smp_df) (map smp_force_median smp_df) _ _)
    as [d2 sf].
  rewrite (getitem_map _ _ _ Hw).
  cbn [fst snd np_random comparison_df min_scaling_coeff random_tests
       retrieved_skill smp_pit_comparison_pkl].
  split; [reflexivity|]. split.
  - split; [reflexivity|]. split; [now rewrite Hc | now rewrite Hm].
  - split; [left; now split|]. now split.
Qed.

Lemma for_each_agree smp_data : forall ka kb,
  same_search ka kb ->
  fst (for_each align_profile smp_data ka)
  = fst (for_each align_profile smp_data kb) /\
  same_search (snd (for_each align_profile smp_data ka))
              (snd (for_each align_profile smp_data kb)) /\
  same_candidates ka kb (snd (for_each align_profile smp_data ka))
                  (snd (for_each align_profile smp_data kb)) /\
  smp_pit_comparison_pkl (snd (for_each align_profile smp_data ka))
  = smp_pit_comparison_pkl ka /\
  smp_pit_comparison_pkl (snd (for_each align_profile smp_data kb))
  = smp_pit_comparison_pkl kb.
Proof.
  induction smp_data as [|smp rest IH]; intros ka kb Hsame.
  - cbn [for_each ret fst snd]. split; [reflexivity|]. split; [exact Hsame|].
    split; [right; now repeat split|]. now split.
  - cbn [for_each]. unfold bind.
    destruct (align_profile_agree smp Hsame) as (Hout & Hs1 & Hc1 & Hpa & Hpb).
    destruct (align_profile smp ka) as [[[]|ea] ka1];
      destruct (align_profile smp kb) as [[[]|eb] kb1];
      cbn [fst snd] in *; try discriminate.
    + destruct (IH ka1 kb1 Hs1) as (Hout2 & Hs2 & Hc2 & Hpa2 & Hpb2).
      split; [exact Hout2|]. split; [exact Hs2|]. split.
      * destruct Hc2 as [Heq | (Ha & Hb & Hc & Hd)]; [now left|].
        destruct Hc1 as [[Ht Hs] | (Ha1 & Hb1 & Hc1 & Hd1)].
        -- left. split; congruence.
        -- right. repeat split; congruence.
      * split; congruence.
    + split; [exact Hout|]. split; [exact Hs1|]. split; [exact Hc1|].
      now split.
Qed.

(** C4.  Under [paper_conditions] the seed is fixed (2019).  Two runs of
    the seeding, loading and alignment cells over the same directory
    listing, in the same order, and the same pit tables end alike whatever
    the two kernels held before (another random state, the accumulators,
    candidates and skills of an earlier run, another pickle on disk): the
    same outcome, the same random state, the same selected plans
    ([min_scaling_coeff]) and the same rows ([comparison_df]), the same
    pickle when the run ends normally, and the same candidates
    ([random_tests]) and skill scores ([retrieved_skill]), unless no pass
    got as far as drawing candidates and each kernel still has the lists it
    had. *)
Theorem seeded_runs_agree listing k1 k2 :
  paper_conditions cfg = true ->
  skip_alignment cfg = false ->
  fst (seed_load_align listing k1) = fst (seed_load_align listing k2) /\
  np_random (snd (seed_load_align listing k1))
  = np_random (snd (seed_load_align listing k2)) /\
  min_scaling_coeff (snd (seed_load_align listing k1))
  = min_scaling_coeff (snd (seed_load_align listing k2)) /\
  comparison_df (snd (seed_load_align listing k1))
  = comparison_df (snd (seed_load_align listing k2)) /\
  (fst (seed_load_align listing k1) = Ok tt ->
   smp_pit_comparison_pkl (snd (seed_load_align listing k1))
   = smp_pit_comparison_pkl (snd (seed_load_align listing k2))) /\
  ((random_tests (snd (seed_load_align listing k1))
    = random_tests (snd (seed_load_align listing k2)) /\
    retrieved_skill (snd (seed_load_align listing k1))
    = retrieved_skill (snd (seed_load_align listing k2))) \/
   (random_tests (snd (seed_load_align listing k1)) = random_tests k1 /\
    retrieved_skill (snd (seed_load_align listing k1)) = retrieved_skill k1 /\
    random_tests (snd (seed_load_align listing k2)) = random_tests k2 /\
    retrieved_skill (snd (seed_load_align listing k2)) = retrieved_skill k2)).
Proof.
  intros Hseed Hskip.
  unfold seed_load_align, seed_cell, load_cell, alignment_cell.
  rewrite Hseed, Hskip.
  unfold bind, modify, print, ret, reset_accumulators, scaling_summary, gets,
    to_pickle, modify.
  cbn [np_random comparison_df min_scaling_coeff random_tests retrieved_skill
       stdout smp_pit_comparison_pkl].
  set (smp_data := map load_smp
                     (map (path_join input_data)
                          (filter (endswith ".pnt") listing))).
  set (line := ("SMP calibration profiles loaded: "
                ++ string_of_nat (length smp_data))%string).
  set (ka := mkKernel (np_random_seed 2019) [] [] (random_tests k1)
                      (retrieved_skill k1) (stdout k1 ++ [line])
                      (smp_pit_comparison_pkl k1)).
  set (kb := mkKernel (np_random_seed 2019) [] [] (random_tests k2)
                      (retrieved_skill k2) (stdout k2 ++ [line])
                      (smp_pit_comparison_pkl k2)).
  assert (Hsame : same_search ka kb) by (repeat split).
  destruct (for_each_agree smp_data Hsame) as (Hout & (Hr & Hc & Hm) & Hcand & _ & _).
  destruct (for_each align_profile smp_data ka) as [[[]|ea] ka1];
    destruct (for_each align_profile smp_data kb) as [[[]|eb] kb1];
    cbn [fst snd] in *; try discriminate;
    cbn [np_random comparison_df min_scaling_coeff random_tests retrieved_skill
         stdout smp_pit_comparison_pkl].
  - split; [reflexivity|]. split; [exact Hr|]. split; [exact Hm|].
    split; [exact Hc|]. split; [intros _; exact Hc|]. exact Hcand.
  - split; [exact Hout|]. split; [exact Hr|]. split; [exact Hm|].
    split; [exact Hc|]. split; [discriminate|]. exact Hcand.
Qed.

End AlignmentCell.

(** ** The filtered table *)

Lemma In_filter_results cutter_size df c :
  In c (map row (filter_results cutter_size df)) <->
  In c df /\ has_nan c = false /\ count_ok cutter_size c = true
  /\ new_snow_or_ice c = false.
Proof.
  unfold filter_results, dropna. rewrite map_map. simpl. rewrite map_id.
  rewrite !filter_In, !negb_true_iff. tauto.
Qed.

(** C2, as the code has it.  No row of the filtered table has fewer than
    [2 * CUTTER_SIZE] enclosed points: a row with fewer, and so a row with
    exactly [2 * CUTTER_SIZE - 1], is left out.  A row with exactly
    [2 * CUTTER_SIZE] points passes the count, and it is in the filtered
    table when it also passes the two other filters of the cell: no column
    is NaN, and the layer type is neither new snow nor ice. *)
Theorem undersampled_rows_excluded cutter_size df :
  (forall c n, count_samp (samp (base c)) = Some n -> n < cutter_size * 2 ->
     ~ In c (map row (filter_results cutter_size df))) /\
  (forall c n, count_samp (samp (base c)) = Some n -> n == cutter_size * 2 - 1 ->
     ~ In c (map row (filter_results cutter_size df))) /\
  (forall c n, In c df ->
     count_samp (samp (base c)) = Some n -> n == cutter_size * 2 ->
     has_nan c = false -> new_snow_or_ice c = false ->
     In c (map row (filter_results cutter_size df))).
Proof.
  assert (G : forall c n, count_samp (samp (base c)) = Some n ->
                n < cutter_size * 2 ->
                ~ In c (map row (filter_results cutter_size df))).
  { intros c n Hc Hn Hin. apply In_filter_results in Hin.
    destruct Hin as (_ & _ & Hok & _). unfold count_ok in Hok.
    rewrite Hc in Hok. apply Qle_bool_iff in Hok. lra. }
  split; [exact G|]. split.
  - intros c n Hc Hn. apply (G c n Hc). lra.
  - intros c n Hin Hc Hn Hnan Htype. apply In_filter_results.
    repeat split; try assumption.
    unfold count_ok. rewrite Hc. apply Qle_bool_iff. lra.
Qed.

(** ** A small run *)

(** Stand-ins for the collaborators and a two-profile data set, to run the
    cells on. *)
Module Fixture.

(** The random state is a counter. *)
Definition rng : Type := nat.
Definition np_random_seed (seed : Z) : rng := Z.to_nat seed.

Record Profile : Type := mkProfile {
  name : string;
  p2015 : list p2015_row;
  l2012 : list l2012_row
}.

Definition proksch2015_calc (p : Profile) (window : Q) : list p2015_row := p2015 p.
Definition loewe2012_calc (p : Profile) (window : Q) : list l2012_row := l2012 p.

Definition digit (c : ascii) : option Z :=
  let n := N_of_ascii c in
  if ((48 <=? n) && (n <=? 57))%N then Some (Z.of_N n - 48)%Z else None.

Fixpoint digits (acc : Z) (s : string) : exn + Z :=
  match s with
  | EmptyString => inr acc
  | String c s' =>
      match digit c with
      | Some d => digits (10 * acc + d)%Z s'
      | None => inl ValueError
      end
  end.

(** [int] on a string of decimal digits. *)
Definition int_of_str (s : string) : exn + Z :=
  match s with
  | EmptyString => inl ValueError
  | _ => digits 0 s
  end.

(** Every layer gets the same scaling, one of [-layer/2], [0], [layer/2] in
    turn. *)
Definition random_stretch (x : Z) (overall layer : Q) (g : rng) : plan * rng :=
  (repeat (layer / 2 * (inject_Z (Z.of_nat (g mod 3)) - 1)) (Z.to_nat x), S g).

(** Depths grow by the first scaling; values are carried over. *)
Definition scale_profile (w : plan) (dist vals : list Q) (l_resample h_resample : Q)
  : list Q * list value :=
  (map (fun d => d * (1 + hd 0 w)) dist, map Some vals).

Definition inside (h c : Q) (dv : Q * value) : bool :=
  Qle_bool (h - c) (fst dv) && Qle_bool (fst dv) (h + c).

Definition vsum (vs : list value) : value :=
  fold_right (vlift2 Qplus) (Some 0) vs.

(** Count and mean of the points within the cutter at each height. *)
Definition extract_samples (dist : list Q) (vals : list value) (heights : list Q)
           (c : Q) : list sample :=
  map (fun h =>
         let pts := filter (inside h c) (combine dist vals) in
         let n := inject_Z (Z.of_nat (length pts)) in
         mkSample (Some n)
                  (if Qeq_bool n 0 then None
                   else vlift2 Qdiv (vsum (map snd pts)) (Some n)))
      heights.

Definition abs_error (c : compare_row) : value :=
  match pit c with
  | Some d => vlift2 (fun a b => Qabs (a - b)) (mean_samp (samp c)) (RHO (cutter d))
  | None => None
  end.

(** A score that falls as the total absolute error grows. *)
Definition calc_skill (profile : list compare_row) (c : Q) : skill :=
  let e := vsum (map abs_error profile) in
  mkSkill (vlift2 Qminus (Some 0) e) e e e.

Definition cfg : settings :=
  {| CUTTER_SIZE := 1; WINDOW_SIZE := 5; H_RESAMPLE := 1; L_RESAMPLE := 2;
     MAX_STRETCH_LAYER := 3 # 4; MAX_STRETCH_OVERALL := 15 # 100;
     NUM_TESTS := 3; skip_alignment := false; paper_conditions := true |}.

Definition pit_summary : list pit_row := [mkPit "P1" 649 (5 # 1000)].

Definition pit_density : list cutter_row :=
  [mkCutter "P1" (3 # 10) (Some 305) (Some "R"%string);
   mkCutter "P1" (1 # 10) (Some 325) (Some "F"%string)].

(** A profile with a pit (SMPF 649) and one without (SMPF 650). *)
Definition S34M0649 : Profile :=
  mkProfile "S34M0649"
    [mkP2015 0 300; mkP2015 1 310; mkP2015 2 320; mkP2015 3 330]
    [mkL2012 1 (2 # 10); mkL2012 2 (3 # 10); mkL2012 3 (4 # 10); mkL2012 4 (5 # 10)].

Definition S34M0650 : Profile :=
  mkProfile "S34M0650" (p2015 S34M0649) (l2012 S34M0649).

Definition k0 : kernel rng := fresh_kernel 0%nat [].

(** The data directory: a file is the profile of its name. *)
Definition input_data : string := "data".
Definition path_join (a b : string) : string := a ++ "/" ++ b.
Definition load_smp (path : string) : Profile :=
  if String.eqb path "data/S34M0649.pnt" then S34M0649 else S34M0650.

(** The mean of the absolute totals, printed as a fraction. *)
Definition format_mean_abs (totals : list Q) : string :=
  match totals with
  | [] => "nan"
  | _ =>
      let m := Qred (fold_right Qplus 0 (map Qabs totals)
                     / inject_Z (Z.of_nat (length totals))) in
      string_of_nat (Z.to_nat (Qnum m)) ++ "/" ++ string_of_nat (Pos.to_nat (Qden m))
  end.

(** The cells on these stand-ins and tables. *)
Definition pit_of := select_pit name int_of_str cfg pit_summary pit_density.
Definition resampled := resample proksch2015_calc loewe2012_calc cfg.
Definition align :=
  align_profile name proksch2015_calc loewe2012_calc int_of_str random_stretch
                scale_profile extract_samples calc_skill cfg pit_summary pit_density.
Definition notebook :=
  seed_load_align np_random_seed name proksch2015_calc loewe2012_calc int_of_str
                  random_stretch scale_profile extract_samples calc_skill cfg
                  pit_summary pit_density input_data path_join load_smp
                  format_mean_abs.

(** A full window of new snow. *)
Definition new_snow_row : comparison_row :=
  mkComparison
    (mkCompare (mkSample (Some 30) (Some 250))
               (Some (mkDensity 0 (mkCutter "P2" 10 (Some 240) (Some "N"%string)) 0)))
    (Some 1) (Some 1).

End Fixture.

Import Fixture.

(** The selection on the small run: the third candidate wins. *)
Lemma top_ranked_candidate_selected_run :
  exists k' w,
    align S34M0649 k0 = (Ok tt, k') /\
    nth_error (random_tests k') 2 = Some w /\
    min_scaling_coeff k' = [w].
Proof.
  destruct (@top_ranked_candidate_selected rng Profile name proksch2015_calc
              loewe2012_calc int_of_str random_stretch scale_profile
              extract_samples calc_skill cfg pit_summary pit_density
              S34M0649 k0
              (fst (match pit_of S34M0649 with inr x => x | inl _ => ([], []) end))
              (snd (match pit_of S34M0649 with inr x => x | inl _ => ([], []) end))
              (match resampled S34M0649 pit_summary with inr x => x | inl _ => [] end)
              3%Z)
    as (k' & i & w & Hrun & _ & _ & Hw & Hcoeff & _).
  - reflexivity.
  - reflexivity.
  - reflexivity.
  - simpl. lia.
  - exists k', w. split; [exact Hrun|].
    assert (E : k' = snd (align S34M0649 k0)).
    { unfold align. now rewrite Hrun. }
    split; [|exact Hcoeff].
    rewrite E in Hcoeff. vm_compute in Hcoeff.
    inversion Hcoeff; subst w. rewrite E. reflexivity.
Defined.

(** The rows of the small run come from the winning plan, the third
    candidate, which stretches the profile by 3/8: the cutter at 1 mm then
    holds the points recorded at 0 and 1 mm, the cutter at 3 mm the point
    recorded at 2 mm, and the two rows kept carry the structural length and
    the median force of those points. *)
Lemma winning_plan_reapplied_run :
  exists k' r0 r1,
    align S34M0649 k0 = (Ok tt, k') /\
    last (min_scaling_coeff k') [] = [3 # 8; 3 # 8; 3 # 8] /\
    comparison_df k' = [r0; r1] /\
    l r0 = Some (50 # 200) /\ force_median r0 = Some (3 # 2) /\
    l r1 = Some (4 # 10) /\ force_median r1 = Some 3.
Proof.
  pose proof (@winning_plan_reapplied rng Profile name proksch2015_calc
                loewe2012_calc int_of_str random_stretch scale_profile
                extract_samples calc_skill cfg pit_summary pit_density
                S34M0649 k0
                (fst (match pit_of S34M0649 with inr x => x | inl _ => ([], []) end))
                (snd (match pit_of S34M0649 with inr x => x | inl _ => ([], []) end))
                (match resampled S34M0649 pit_summary with inr x => x | inl _ => [] end)
                3%Z eq_refl eq_refl eq_refl ltac:(simpl; lia)) as T.
  destruct T as (k' & i & w & Hrun & Hidx & Hw & Hlast & Hrest).
  cbv zeta in Hrest. destruct Hrest as (result & Hcmp & Hbase & Hrows).
  assert (E : k' = snd (align S34M0649 k0)).
  { unfold align. now rewrite Hrun. }
  rewrite E in Hidx. vm_compute in Hidx.
  assert (Ei : i = 2%nat) by (injection Hidx; auto). subst i.
  rewrite E in Hw. vm_compute in Hw.
  assert (Ew : [3 # 8; 3 # 8; 3 # 8] = w) by (injection Hw; auto).
  rewrite <- Ew in Hlast, Hbase, Hrows. clear Hw Ew.
  unfold k0, fresh_kernel in Hcmp. cbn [comparison_df app] in Hcmp.
  vm_compute in Hbase.
  destruct result as [|r0 [|r1 [|r2 rest]]];
    [discriminate Hbase | discriminate Hbase | | discriminate Hbase].
  destruct (Hrows 0%nat r0 eq_refl) as [Hl0 Hf0].
  destruct (Hrows 1%nat r1 eq_refl) as [Hl1 Hf1].
  vm_compute in Hl0, Hf0, Hl1, Hf1.
  exists k', r0, r1. split; [exact Hrun|]. split; [exact Hlast|].
  split; [exact Hcmp|]. repeat split; assumption.
Defined.

(** Two seeded runs over the small directory, one in a kernel that has
    run nothing, one in a kernel with another random state and the
    leftovers of an earlier session. *)
Lemma seeded_runs_agree_run :
  let stale := mkKernel 7%nat [new_snow_row] [[1]] [[1]] []
                        ["an earlier session"%string] [new_snow_row] in
  let listing := ["S34M0649.pnt"; "notes.txt"]%string in
  min_scaling_coeff (snd (notebook listing k0))
  = min_scaling_coeff (snd (notebook listing stale)) /\
  comparison_df (snd (notebook listing k0))
  = comparison_df (snd (notebook listing stale)) /\
  random_tests (snd (notebook listing k0))
  = random_tests (snd (notebook listing stale)) /\
  retrieved_skill (snd (notebook listing k0))
  = retrieved_skill (snd (notebook listing stale)).
Proof.
  intros stale listing.
  destruct (@seeded_runs_agree rng np_random_seed Profile name proksch2015_calc
              loewe2012_calc int_of_str random_stretch scale_profile
              extract_samples calc_skill cfg pit_summary pit_density
              input_data path_join load_smp format_mean_abs
              listing k0 stale eq_refl eq_refl)
    as (_ & _ & Hplans & Hrows & _ & [[Htests Hskills] | (_ & _ & Hstale & _)]).
  - repeat split; assumption.
  - exfalso. vm_compute in Hstale. discriminate Hstale.
Defined.

(** The small batch with the profile without a pit in front. *)
Lemma failing_profile_stops_the_batch_run :
  for_each align ([] ++ S34M0650 :: [S34M0649]) k0 = (Raised IndexError, k0).
Proof.
  apply (proj1 (proj2
    (@failing_profile_stops_the_batch rng Profile name proksch2015_calc
       loewe2012_calc int_of_str random_stretch scale_profile
       extract_samples calc_skill cfg pit_summary pit_density
       [] S34M0650 [S34M0649] k0 k0 eq_refl)) 650%Z).
  - reflexivity.
  - intros p [Hp | []]. subst p. simpl. lia.
Defined.

(** C5, the claim on the code: the profile without a pit comes first in the
    batch, and the profile after it, which runs to its end when it is alone,
    is not processed: nothing is printed and no row is kept. *)
Lemma missing_pit_aborts_batch :
  for_each align [S34M0650; S34M0649] k0 = (Raised IndexError, k0) /\
  stdout (snd (for_each align [S34M0650; S34M0649] k0)) = [] /\
  fst (for_each align [S34M0649] k0) = Ok tt /\
  stdout (snd (for_each align [S34M0649] k0)) = ["Finished with S34M0649"%string].
Proof.
  repeat split; vm_compute; reflexivity.
Qed.

(** The small profile is resampled to 5 mm, beyond its last depth of 3 mm. *)
Lemma resample_flat_beyond_last_depth_run :
  exists m,
    column_max (map p2015_distance (p2015 S34M0649)) = Some m /\
    (exists smp_df, resampled S34M0649 pit_summary = inr smp_df /\
                    map density smp_df = [300; 310; 320; 330; 330]) /\
    interp_at (map p2015_distance (p2015 S34M0649))
              (map P2015_density (p2015 S34M0649)) 4 = 330.
Proof.
  destruct (@resample_flat_beyond_last_depth Profile proksch2015_calc
              loewe2012_calc cfg S34M0649 (mkPit "P1" 649 (5 # 1000)))
    as (m & Hm & Hres & Hflat).
  - discriminate.
  - reflexivity.
  - intros C. vm_compute in C. discriminate.
  - exists m. split; [exact Hm|]. split.
    + eexists. split; [exact Hres|].
      vm_compute in Hm. inversion Hm; subst m. reflexivity.
    + apply (Hflat 4). reflexivity.
Defined.

(** C2, the claim on the code: a window with exactly [2 * CUTTER_SIZE]
    points, of new snow, is not in the filtered table. *)
Lemma full_window_of_new_snow_dropped :
  count_samp (samp (base new_snow_row)) = Some (2 * 15) /\
  filter_results 15 [new_snow_row] = [].
Proof.
  split; reflexivity.
Qed.

(** The count filter on a table of two rows: the row with 29 points goes,
    the row with 30 stays. *)
Lemma undersampled_rows_excluded_run :
  let full := mkComparison
                (mkCompare (mkSample (Some 30) (Some 250))
                   (Some (mkDensity 0 (mkCutter "P2" 10 (Some 240) (Some "R"%string)) 0)))
                (Some 1) (Some 1) in
  let short := mkComparison
                 (mkCompare (mkSample (Some 29) (Some 250))
                    (Some (mkDensity 1 (mkCutter "P2" 7 (Some 240) (Some "R"%string)) 30)))
                 (Some 1) (Some 1) in
  map row (filter_results 15 [short; full]) = [full].
Proof.
  reflexivity.
Qed.

(** ** More on the filtered table *)

Lemma filter_all {A} (f : A -> bool) (a : list A) :
  (forall x, In x a -> f x = true) -> filter f a = a.
Proof.
  induction a as [|x a IH]; intros H; simpl; [reflexivity|].
  rewrite (H x) by now left. f_equal. apply IH. intros y Hy. apply H. now right.
Qed.

(** X7.  A row of the filtered table is a row of [comparison_df] that is
    complete: its count, its mean, its pit row with a density and a layer
    type, its [l] and its [force_median] are all there.  Its count is at
    least [2 * CUTTER_SIZE], its layer type is neither ['N'] nor ['I'], and
    its error is a number, the mean minus the pit density. *)
Theorem filtered_rows_are_complete cutter_size df res :
  In res (filter_results cutter_size df) ->
  In (row res) df /\
  exists n mean d rho t sl fm,
    count_samp (samp (base (row res))) = Some n /\ cutter_size * 2 <= n /\
    mean_samp (samp (base (row res))) = Some mean /\
    pit (base (row res)) = Some d /\
    RHO (cutter d) = Some rho /\
    TYPE (cutter d) = Some t /\ t <> "N"%string /\ t <> "I"%string /\
    l (row res) = Some sl /\ force_median (row res) = Some fm /\
    error res = Some (mean - rho).
Proof.
  intros Hres.
  assert (Hin : In (row res) (map row (filter_results cutter_size df))).
  { now apply in_map. }
  assert (Herr : error res = error_of (row res)).
  { unfold filter_results in Hres. apply in_map_iff in Hres.
    destruct Hres as (c & <- & _). reflexivity. }
  apply In_filter_results in Hin. destruct Hin as (Hdf & Hnan & Hcount & Htype).
  split; [exact Hdf|].
  unfold has_nan, isnan in Hnan. unfold count_ok in Hcount.
  unfold new_snow_or_ice, TYPE_of in Htype. rewrite Herr. unfold error_of.
  destruct (count_samp (samp (base (row res)))) as [n|]; [|discriminate].
  destruct (mean_samp (samp (base (row res)))) as [mean|]; [|discriminate].
  destruct (pit (base (row res))) as [d|]; [|discriminate].
  destruct (RHO (cutter d)) as [rho|] eqn:Hrho; [|discriminate].
  destruct (TYPE (cutter d)) as [t|] eqn:Ht; [|discriminate].
  destruct (l (row res)) as [sl|]; [|discriminate].
  destruct (force_median (row res)) as [fm|];
    [|simpl in Hnan; discriminate].
  exists n, mean, d, rho, t, sl, fm.
  apply Qle_bool_iff in Hcount. apply orb_false_iff in Htype.
  destruct Htype as [HN HI]. apply String.eqb_neq in HN, HI.
  repeat split; try assumption; reflexivity.
Qed.

(** X8.  Filtering is idempotent and only removes rows: the filtered rows,
    filtered again, come back as they are, error column included, and the
    filtered table is never longer than [comparison_df]. *)
Theorem filter_results_idempotent cutter_size df :
  filter_results cutter_size (map row (filter_results cutter_size df))
  = filter_results cutter_size df /\
  (length (filter_results cutter_size df) <= length df)%nat.
Proof.
  split.
  - assert (Hrows : forall c,
              In c (map row (filter_results cutter_size df)) ->
              has_nan c = false /\ count_ok cutter_size c = true
              /\ new_snow_or_ice c = false).
    { intros c Hc. apply In_filter_results in Hc. tauto. }
    assert (E : map row (filter_results cutter_size df)
                = filter (fun c => negb (new_snow_or_ice c))
                    (filter (count_ok cutter_size) (dropna df))).
    { unfold filter_results. rewrite map_map. simpl. apply map_id. }
    unfold filter_results at 1. unfold dropna at 1.
    rewrite !filter_all.
    + rewrite E. reflexivity.
    + intros c Hc. now rewrite (proj1 (Hrows c Hc)).
    + intros c Hc. rewrite filter_all in Hc.
      * apply (Hrows c Hc).
      * intros c' Hc'. now rewrite (proj1 (Hrows c' Hc')).
    + intros c Hc. rewrite !filter_all in Hc.
      * now rewrite (proj2 (proj2 (Hrows c Hc))).
      * intros c' Hc'. now rewrite (proj1 (Hrows c' Hc')).
      * intros c' Hc'. rewrite filter_all in Hc'.
        -- apply (Hrows c' Hc').
        -- intros c'' Hc''. now rewrite (proj1 (Hrows c'' Hc'')).
  - unfold filter_results, dropna. rewrite length_map.
    eapply Nat.le_trans; [apply filter_length_le|].
    eapply Nat.le_trans; [apply filter_length_le|]. apply filter_length_le.
Qed.

(** The complete row of the small table. *)
Lemma filtered_rows_are_complete_run :
  let full := mkComparison
                (mkCompare (mkSample (Some 30) (Some 250))
                   (Some (mkDensity 0 (mkCutter "P2" 10 (Some 240) (Some "R"%string)) 0)))
                (Some 1) (Some 1) in
  exists n mean d rho t sl fm,
    count_samp (samp (base full)) = Some n /\ 15 * 2 <= n /\
    mean_samp (samp (base full)) = Some mean /\
    pit (base full) = Some d /\
    RHO (cutter d) = Some rho /\
    TYPE (cutter d) = Some t /\ t <> "N"%string /\ t <> "I"%string /\
    l full = Some sl /\ force_median full = Some fm /\
    error (mkResult full (Some (250 - 240))) = Some (mean - rho).
Proof.
  intros full.
  exact (proj2 (@filtered_rows_are_complete 15 [full]
                  (mkResult full (Some (250 - 240))) (or_introl eq_refl))).
Defined.

(** ** Saving and loading the comparison *)

Section Pickle.

Variable rng : Type.
Variable Profile : Type.
Variable name : Profile -> string.
Variable proksch2015_calc : Profile -> Q -> list p2015_row.
Variable loewe2012_calc : Profile -> Q -> list l2012_row.
Variable int_of_str : string -> exn + Z.
Variable random_stretch : Z -> Q -> Q -> rng -> plan * rng.
Variable scale_profile : plan -> list Q -> list Q -> Q -> Q -> list Q * list value.
Variable extract_samples : list Q -> list value -> list Q -> Q -> list sample.
Variable calc_skill : list compare_row -> Q -> skill.
Variable pit_summary : list pit_row.
Variable pit_density : list cutter_row.
Variable format_mean_abs : list Q -> string.

(** The alignment cell under some settings. *)
Let cell (cfg : settings) :=
  alignment_cell name proksch2015_calc loewe2012_calc int_of_str random_stretch
                 scale_profile extract_samples calc_skill cfg pit_summary
                 pit_density format_mean_abs.

Let pass (cfg : settings) :=
  align_profile name proksch2015_calc loewe2012_calc int_of_str random_stretch
                scale_profile extract_samples calc_skill cfg pit_summary
                pit_density.

Lemma for_each_keeps_pickle cfg (smp_data : list Profile) (k : kernel rng) :
  smp_pit_comparison_pkl (snd (for_each (pass cfg) smp_data k))
  = smp_pit_comparison_pkl k.
Proof.
  revert k. induction smp_data as [|smp l0 IH]; intros k; [reflexivity|].
  simpl for_each. unfold bind at 1.
  pose proof (align_profile_effect name proksch2015_calc loewe2012_calc
                int_of_str random_stretch scale_profile extract_samples
                calc_skill cfg pit_summary pit_density smp k) as G.
  fold (pass cfg) in G.
  destruct (pass cfg smp k) as [[[]|e] k1].
  - destruct G as (w & rows & _ & _ & _ & _ & Hp). now rewrite IH.
  - simpl. tauto.
Qed.

(** X9.  The pickle round trip.  A run of the alignment that succeeds
    leaves on disk the table it built; a later run under [skip_alignment],
    whatever its other settings and profiles, does no alignment (it draws
    nothing, prints nothing) and has that same table back as
    [comparison_df].  A run of the alignment that raises has not written the
    pickle. *)
Theorem pickle_round_trip cfg cfg' smp_data smp_data' (k : kernel rng) :
  skip_alignment cfg = false ->
  skip_alignment cfg' = true ->
  (forall k1, cell cfg smp_data k = (Ok tt, k1) ->
     smp_pit_comparison_pkl k1 = comparison_df k1 /\
     cell cfg' smp_data' k1 =
       (Ok tt, mkKernel (np_random k1) (comparison_df k1) [] (random_tests k1)
                        (retrieved_skill k1) (stdout k1) (comparison_df k1))) /\
  (forall e k1, cell cfg smp_data k = (Raised e, k1) ->
     smp_pit_comparison_pkl k1 = smp_pit_comparison_pkl k).
Proof.
  intros Hrun Hload.
  assert (Hcell : cell cfg smp_data k =
            match for_each (pass cfg) smp_data
                    (mkKernel (np_random k) [] [] (random_tests k)
                              (retrieved_skill k) (stdout k)
                              (smp_pit_comparison_pkl k)) with
            | (Ok _, k1) =>
                (Ok tt, mkKernel (np_random k1) (comparison_df k1)
                                 (min_scaling_coeff k1) (random_tests k1)
                                 (retrieved_skill k1)
                                 (stdout k1 ++
                                  [("Average scaling: " ++
                                    format_mean_abs
                                      (map (fun s => fold_right Qplus 0 s)
                                           (min_scaling_coeff k1)))%string])
                                 (comparison_df k1))
            | (Raised e, k1) => (Raised e, k1)
            end).
  { unfold cell, alignment_cell, bind, reset_accumulators, to_pickle,
      scaling_summary, gets, print, modify.
    rewrite Hrun. fold (pass cfg).
    destruct (for_each (pass cfg) smp_data _) as [[[]|e] k1]; reflexivity. }
  split.
  - intros k1 H. rewrite Hcell in H.
    destruct (for_each (pass cfg) smp_data _) as [[[]|e] k0]; [|discriminate].
    inversion H; subst k1. clear H. split; [reflexivity|].
    unfold cell, alignment_cell, bind, reset_accumulators, modify, read_pickle.
    rewrite Hload. reflexivity.
  - intros e k1 H. rewrite Hcell in H.
    pose proof (for_each_keeps_pickle cfg smp_data
                  (mkKernel (np_random k) [] [] (random_tests k)
                            (retrieved_skill k) (stdout k)
                            (smp_pit_comparison_pkl k))) as Hp.
    destruct (for_each (pass cfg) smp_data _) as [[[]|e0] k0]; [discriminate|].
    inversion H; subst. exact Hp.
Qed.

End Pickle.

(** ** The small run again *)

(** The settings of the small run with no candidate, and with the alignment
    skipped. *)
Module Variants.

Definition cfg_no_tests : settings :=
  {| CUTTER_SIZE := 1; WINDOW_SIZE := 5; H_RESAMPLE := 1; L_RESAMPLE := 2;
     MAX_STRETCH_LAYER := 3 # 4; MAX_STRETCH_OVERALL := 15 # 100;
     NUM_TESTS := 0; skip_alignment := false; paper_conditions := true |}.

Definition cfg_skip : settings :=
  {| CUTTER_SIZE := 1; WINDOW_SIZE := 5; H_RESAMPLE := 1; L_RESAMPLE := 2;
     MAX_STRETCH_LAYER := 3 # 4; MAX_STRETCH_OVERALL := 15 # 100;
     NUM_TESTS := 3; skip_alignment := true; paper_conditions := true |}.

Definition cell (c : settings) :=
  alignment_cell name proksch2015_calc loewe2012_calc int_of_str random_stretch
                 scale_profile extract_samples calc_skill c pit_summary
                 pit_density format_mean_abs.

(** Two candidates a profile, and a second pit, for the profile the small
    run has no pit for. *)
Definition cfg_two_tests : settings :=
  {| CUTTER_SIZE := 1; WINDOW_SIZE := 5; H_RESAMPLE := 1; L_RESAMPLE := 2;
     MAX_STRETCH_LAYER := 3 # 4; MAX_STRETCH_OVERALL := 15 # 100;
     NUM_TESTS := 2; skip_alignment := false; paper_conditions := true |}.

Definition two_pits : list pit_row :=
  [mkPit "P1" 649 (5 # 1000); mkPit "P2" 650 (5 # 1000)].

Definition two_pit_density : list cutter_row :=
  pit_density ++
  [mkCutter "P2" (3 # 10) (Some 305) (Some "R"%string);
   mkCutter "P2" (1 # 10) (Some 325) (Some "F"%string)].

Definition notebook2 :=
  seed_load_align np_random_seed name proksch2015_calc loewe2012_calc int_of_str
                  random_stretch scale_profile extract_samples calc_skill
                  cfg_two_tests two_pits two_pit_density input_data path_join
                  load_smp format_mean_abs.

End Variants.

(** C4, the claim on the code.  The seed is set once, before the loading
    cell, and every profile draws its candidates from the one random stream,
    so what a profile is tested with depends on its place in the batch, and
    the batch is in the order [os.listdir] returned the files.  Two seeded
    runs over the same two files and the same pits, listed in the two
    orders: profile S34M0649 is aligned first in one run and second in the
    other, and the plan selected for it is not the same (no stretch in the
    first run, a stretch of 3/8 in the second). *)
Lemma listing_order_changes_the_search :
  let first :=
    snd (Variants.notebook2 ["S34M0649.pnt"; "S34M0650.pnt"]%string k0) in
  let second :=
    snd (Variants.notebook2 ["S34M0650.pnt"; "S34M0649.pnt"]%string k0) in
  stdout first = ["SMP calibration profiles loaded: 2"%string;
                  "Finished with S34M0649"%string;
                  "Finished with S34M0650"%string;
                  "Average scaling: 9/16"%string] /\
  nth_error (min_scaling_coeff first) 0 = Some [0 # 8; 0 # 8; 0 # 8] /\
  stdout second = ["SMP calibration profiles loaded: 2"%string;
                   "Finished with S34M0650"%string;
                   "Finished with S34M0649"%string;
                   "Average scaling: 9/16"%string] /\
  nth_error (min_scaling_coeff second) 1 = Some [3 # 8; 3 # 8; 3 # 8] /\
  nth_error (min_scaling_coeff first) 0 <> nth_error (min_scaling_coeff second) 1.
Proof.
  intros first second.
  assert (H1 : nth_error (min_scaling_coeff first) 0 = Some [0 # 8; 0 # 8; 0 # 8])
    by (vm_compute; reflexivity).
  assert (H2 : nth_error (min_scaling_coeff second) 1 = Some [3 # 8; 3 # 8; 3 # 8])
    by (vm_compute; reflexivity).
  split; [vm_compute; reflexivity|]. split; [exact H1|].
  split; [vm_compute; reflexivity|]. split; [exact H2|].
  rewrite H1, H2. discriminate.
Qed.

(** The profile without a pit leaves the accumulators of a kernel that has
    already processed the other profile as they are. *)
Lemma failed_pass_keeps_accumulators_run :
  let k1 := snd (align S34M0649 k0) in
  min_scaling_coeff (snd (align S34M0650 k1)) = min_scaling_coeff k1 /\
  comparison_df (snd (align S34M0650 k1)) = comparison_df k1 /\
  stdout (snd (align S34M0650 k1)) = stdout k1.
Proof.
  intros k1.
  apply (@failed_pass_keeps_accumulators rng Profile name proksch2015_calc
           loewe2012_calc int_of_str random_stretch scale_profile
           extract_samples calc_skill cfg pit_summary pit_density
           S34M0650 k1 IndexError (snd (align S34M0650 k1))).
  vm_compute. reflexivity.
Defined.

(** The small run with no candidate. *)
Lemma no_candidate_raises_run :
  fst (align_profile name proksch2015_calc loewe2012_calc int_of_str
         random_stretch scale_profile extract_samples calc_skill
         Variants.cfg_no_tests pit_summary pit_density S34M0649 k0)
  = Raised TypeError.
Proof.
  rewrite (@no_candidate_raises rng Profile name proksch2015_calc
             loewe2012_calc int_of_str random_stretch scale_profile
             extract_samples calc_skill Variants.cfg_no_tests pit_summary
             pit_density S34M0649 k0
             (fst (match pit_of S34M0649 with inr x => x | inl _ => ([], []) end))
             (snd (match pit_of S34M0649 with inr x => x | inl _ => ([], []) end))
             (match resampled S34M0649 pit_summary with inr x => x | inl _ => [] end)
             3%Z);
    reflexivity.
Defined.

(** The small profile, resampled: the row at 2 mm carries what was recorded
    at 2 mm. *)
Lemma resampling_keeps_recorded_values_run :
  exists smp_df,
    resampled S34M0649 pit_summary = inr smp_df /\
    forall row, In row smp_df -> distance row == 2 -> density row = 320.
Proof.
  eexists. split; [reflexivity|].
  destruct (@resampling_keeps_recorded_values Profile proksch2015_calc
              loewe2012_calc cfg S34M0649 (mkPit "P1" 649 (5 # 1000)) _ eq_refl)
    as [Hexact _].
  - simpl. repeat constructor.
  - intros row Hrow Hd.
    apply (Hexact row 2%nat (mkP2015 2 320) (mkL2012 3 (4 # 10)) Hrow
             eq_refl eq_refl Hd).
Defined.

(** The small run, saved and loaded. *)
Lemma pickle_round_trip_run :
  let k1 := snd (Variants.cell cfg [S34M0649] k0) in
  smp_pit_comparison_pkl k1 = comparison_df k1 /\
  comparison_df (snd (Variants.cell Variants.cfg_skip [] k1)) = comparison_df k1.
Proof.
  intros k1.
  destruct (proj1 (@pickle_round_trip rng Profile name proksch2015_calc
                     loewe2012_calc int_of_str random_stretch scale_profile
                     extract_samples calc_skill pit_summary pit_density
                     format_mean_abs
                     cfg Variants.cfg_skip [S34M0649] [] k0 eq_refl eq_refl)
                  k1 ltac:(vm_compute; reflexivity))
    as [Hpkl Hload].
  split; [exact Hpkl|].
  unfold Variants.cell. rewrite Hload. reflexivity.
Defined.

End Validation.

(* ===================================================================== *)
(** * The stretch-plan generator of [smpfunc.py] *)
(* ===================================================================== *)

Module Smpfunc.

Local Open Scope Q_scope.

Section StretchPlanGenerator.

(** NumPy's random state and its draw of a float in [[0, 1)]. *)
Variable rng : Type.
Variable random_sample : rng -> Q * rng.
Hypothesis random_sample_unit :
  forall g, 0 <= fst (random_sample g) /\ fst (random_sample g) < 1.

(** The height of a segment and of the resampled profile, in mm. *)
Variable segment_size : Q.
Variable total_length : Q.

(** [np.random.uniform(low, high)] *)
Definition uniform (low high : Q) (g : rng) : Q * rng :=
  let (u, g') := random_sample g in
  (low + (high - low) * u, g').

(** Modelled from the spec: [smpfunc.random_stretch] is not among the
    sources.  "Draw [numSegments] independent per-segment factors
    uniformly from [[1-maxLayerStretch, 1+maxLayerStretch]]". *)
Fixpoint draw_factors (numSegments : nat) (maxLayerStretch : Q) (g : rng)
  : list Q * rng :=
  match numSegments with
  | O => ([], g)
  | S n =>
      let (f, g1) := uniform (1 - maxLayerStretch) (1 + maxLayerStretch) g in
      let (fs, g2) := draw_factors n maxLayerStretch g1 in
      (f :: fs, g2)
  end.

(** Modelled from the spec: the net effect of a plan on the length of the
    profile, "(sum of (factor-1)*segment_size) / total_length". *)
Definition netStretch (plan : list Q) : Q :=
  fold_right Qplus 0 (map (fun f => (f - 1) * segment_size) plan) / total_length.

(** Modelled from the spec: the whole-profile bound, "must not exceed
    [maxOverallStretch] in absolute value". *)
Definition within_overall (maxOverallStretch : Q) (plan : list Q) : bool :=
  Qle_bool (Qabs (netStretch plan)) maxOverallStretch.

(** Modelled from the spec: [smpfunc.random_stretch], "compute the
    whole-profile net stretch; if it exceeds [maxOverallStretch], resample
    (reject-and-retry) until a valid plan is found", within a bounded
    number of generation retries ([None] when they are used up). *)
Fixpoint random_stretch (retries : nat) (numSegments : nat)
         (maxOverallStretch maxLayerStretch : Q) (g : rng)
  : option (list Q * rng) :=
  match retries with
  | O => None
  | S retries' =>
      let (plan, g') := draw_factors numSegments maxLayerStretch g in
      if within_overall maxOverallStretch plan then Some (plan, g')
      else random_stretch retries' numSegments maxOverallStretch maxLayerStretch g'
  end.

(** The random state after [k] rejected draws. *)
Fixpoint after_rejects (k : nat) (numSegments : nat) (maxLayerStretch : Q)
         (g : rng) : rng :=
  match k with
  | O => g
  | S k' =>
      after_rejects k' numSegments maxLayerStretch
                    (snd (draw_factors numSegments maxLayerStretch g))
  end.

Definition factor_ok (maxLayerStretch f : Q) : Prop :=
  1 - maxLayerStretch <= f /\ f <= 1 + maxLayerStretch.

Lemma uniform_range low high g :
  low <= high ->
  low <= fst (uniform low high g) /\ fst (uniform low high g) <= high.
Proof.
  intros H. unfold uniform.
  pose proof (random_sample_unit g) as [H0 H1].
  destruct (random_sample g) as [u g']. simpl in *.
  split; nra.
Qed.

Lemma draw_factors_ok n m g :
  0 <= m ->
  length (fst (draw_factors n m g)) = n /\
  Forall (factor_ok m) (fst (draw_factors n m g)).
Proof.
  intros Hm. revert g. induction n as [|n IH]; intros g; simpl.
  - split; [reflexivity | constructor].
  - pose proof (@uniform_range (1 - m) (1 + m) g ltac:(lra)) as Hu.
    destruct (uniform (1 - m) (1 + m) g) as [f g1].
    specialize (IH g1). destruct (draw_factors n m g1) as [fs g2].
    simpl in *. destruct IH as [IH1 IH2].
    split; [now rewrite IH1 | constructor; assumption].
Qed.

(** A returned plan is a draw as it came, and it passed the test. *)
Lemma random_stretch_is_a_draw retries n o m g plan g' :
  random_stretch retries n o m g = Some (plan, g') ->
  exists g0, draw_factors n m g0 = (plan, g') /\ within_overall o plan = true.
Proof.
  revert g. induction retries as [|retries IH]; intros g; simpl; [discriminate|].
  destruct (draw_factors n m g) as [p g1] eqn:E.
  destruct (within_overall o p) eqn:V.
  - intros H. inversion H; subst. exists g. now split.
  - apply IH.
Qed.

Lemma random_stretch_returns k n o m :
  forall g retries,
    within_overall o (fst (draw_factors n m (after_rejects k n m g))) = true ->
    (k < retries)%nat ->
    exists plan g', random_stretch retries n o m g = Some (plan, g').
Proof.
  induction k as [|k IH]; intros g retries Hv Hk;
    (destruct retries as [|retries]; [lia|]); simpl in *.
  - destruct (draw_factors n m g) as [p g1]. simpl in Hv. rewrite Hv. eauto.
  - destruct (draw_factors n m g) as [p g1] eqn:E. simpl in Hv.
    destruct (within_overall o p); [eauto|].
    apply IH; [exact Hv | lia].
Qed.

(** C6.  With a per-layer bound that is not negative: a plan the generator
    returns has one factor per segment, each within the per-layer bound,
    and a net stretch within the overall bound in absolute value.  It is
    one of the draws, unchanged.  The test accepts a net stretch equal to
    the bound and refuses any larger one; a refused draw is thrown away
    and the next one is drawn.  The generator returns as soon as a draw
    passes, when its retries reach that far. *)
Theorem random_stretch_plans_valid n maxOverallStretch maxLayerStretch :
  0 <= maxLayerStretch ->
  (forall retries g plan g',
     random_stretch retries n maxOverallStretch maxLayerStretch g = Some (plan, g') ->
     length plan = n /\
     Forall (factor_ok maxLayerStretch) plan /\
     Qabs (netStretch plan) <= maxOverallStretch /\
     exists g0, draw_factors n maxLayerStretch g0 = (plan, g')) /\
  (forall plan, Qabs (netStretch plan) == maxOverallStretch ->
     within_overall maxOverallStretch plan = true) /\
  (forall plan eps, 0 < eps ->
     Qabs (netStretch plan) == maxOverallStretch + eps ->
     within_overall maxOverallStretch plan = false) /\
  (forall retries g,
     within_overall maxOverallStretch (fst (draw_factors n maxLayerStretch g)) = false ->
     random_stretch (S retries) n maxOverallStretch maxLayerStretch g =
     random_stretch retries n maxOverallStretch maxLayerStretch
                    (snd (draw_factors n maxLayerStretch g))) /\
  (forall k g retries,
     within_overall maxOverallStretch
       (fst (draw_factors n maxLayerStretch
                          (after_rejects k n maxLayerStretch g))) = true ->
     (k < retries)%nat ->
     exists plan g',
       random_stretch retries n maxOverallStretch maxLayerStretch g = Some (plan, g')).
Proof.
  intros Hm. split; [|split; [|split; [|split]]].
  - intros retries g plan g' H.
    destruct (random_stretch_is_a_draw _ _ _ _ _ H) as (g0 & Hd & Hv).
    pose proof (draw_factors_ok n g0 Hm) as [Hl Hf]. rewrite Hd in Hl, Hf.
    simpl in Hl, Hf. repeat split; try assumption.
    + now apply Qle_bool_iff.
    + now exists g0.
  - intros plan H. apply Qle_bool_iff. lra.
  - intros plan eps He H. unfold within_overall.
    destruct (Qle_bool _ _) eqn:E; [|reflexivity].
    apply Qle_bool_iff in E. lra.
  - intros retries g H. simpl.
    destruct (draw_factors n maxLayerStretch g) as [p g1]. simpl in *.
    now rewrite H.
  - intros k g retries. apply random_stretch_returns.
Qed.

End StretchPlanGenerator.

(** ** A small generator *)

Module Fixture.

(** A random state that counts, and draws 0, 1/4, 1/2, 3/4 in turn. *)
Definition rng : Type := nat.
Definition random_sample (g : rng) : Q * rng :=
  (inject_Z (Z.of_nat (g mod 4)) / 4, S g).

Lemma random_sample_unit g :
  0 <= fst (random_sample g) /\ fst (random_sample g) < 1.
Proof.
  unfold random_sample. cbn [fst].
  assert (E : (0 <= Z.of_nat (g mod 4) < 4)%Z).
  { pose proof (Nat.mod_upper_bound g 4 ltac:(lia)). lia. }
  revert E. generalize (Z.of_nat (g mod 4)) as z. intros z [E1 E2].
  unfold Qdiv, Qle, Qlt, Qmult, Qinv, inject_Z. simpl. lia.
Qed.

End Fixture.

(** Three segments of 50 mm, at most five draws: the first two draws are
    refused, the third one is returned and is within 15 %. *)
Lemma random_stretch_plans_valid_run :
  exists plan g',
    random_stretch Fixture.random_sample 50 150 5 3 (15 # 100) (3 # 4) 0%nat
    = Some (plan, g') /\
    length plan = 3%nat /\
    Qabs (netStretch 50 150 plan) <= 15 # 100.
Proof.
  pose proof (@random_stretch_plans_valid Fixture.rng Fixture.random_sample
                Fixture.random_sample_unit 50 150 3 (15 # 100) (3 # 4)
                ltac:(vm_compute; discriminate)) as (H1 & _ & _ & _ & H5).
  destruct (H5 2%nat 0%nat 5%nat ltac:(vm_compute; reflexivity) ltac:(lia))
    as (plan & g' & Hp).
  exists plan, g'. split; [exact Hp|].
  destruct (H1 _ _ _ _ Hp) as (Hl & _ & Hn & _). split; assumption.
Defined.

End Smpfunc.


(* ===================================================================== *)
(** * Part 3: classification of SMP profiles *)
(* ===================================================================== *)

Module Classification.

Local Open Scope Z_scope.

(** The layer types the classifier predicts: rounded, faceted, depth hoar. *)
Inductive label : Type := R | F | H.

(** The numbers [classify_profile] writes over the predictions. *)
Definition code (c : label) : Z :=
  match c with
  | R => 1
  | F => 2
  | H => 3
  end.

(** A row of the frame [classify_profile] is given. *)
Record features : Type := mkFeatures {
  relative_height : Q;
  l : Q;
  force_median : Q
}.

(** The column ['layer_label']: a copy of ['layer_type'] in which 1, 2 and 3
    are replaced by their letters. *)
Inductive layer_name : Type :=
| Letter (c : label)
| Number (z : Z).

Record classified : Type := mkClassified {
  input : features;
  layer_type : Z;
  layer_label : layer_name
}.

(** [np.unique]: the distinct values, in increasing order. *)
Fixpoint insert_unique (x : Z) (a : list Z) : list Z :=
  match a with
  | [] => [x]
  | y :: a' =>
      if x <? y then x :: a
      else if x =? y then a
      else y :: insert_unique x a'
  end.

Definition np_unique (a : list Z) : list Z := fold_right insert_unique [] a.

(** The loop of [scipy.stats.mode] over the scores: a score replaces the
    most frequent one when its count is strictly larger. *)
Fixpoint most_frequent (scores a : list Z) (oldmostfreq : Z) (oldcounts : nat) : Z :=
  match scores with
  | [] => oldmostfreq
  | score :: scores' =>
      let counts := count_occ Z.eq_dec a score in
      if (oldcounts <? counts)%nat then most_frequent scores' a score counts
      else most_frequent scores' a oldmostfreq oldcounts
  end.

(** [mode(x)[0]]: the most common value, the smallest one on a tie. *)
Definition mode (a : list Z) : Z := most_frequent (np_unique a) a 0 0%nat.

(** The last [n] elements. *)
Definition lastn {A} (n : nat) (a : list A) : list A := skipn (length a - n) a.

(** The window of [rolling(window)] at position [i]: the value there and
    the values before it, [window] at most ([center] is left at its default,
    [False]). *)
Definition window_at (window : nat) (a : list Z) (i : nat) : list Z :=
  lastn window (firstn (S i) a).

(** [Series.rolling(window, min_periods=1).apply(f).values]: with one
    period enough, every position has a result. *)
Definition rolling_apply (window : nat) (f : list Z -> Z) (a : list Z) : list Z :=
  map (fun i => f (window_at window a i)) (seq 0 (length a)).

(** Line 649. *)
Definition smooth_layer_type (layer_type : list Z) : list Z :=
  rolling_apply 3 mode layer_type.

(** Lines 650-654. *)
Definition name_of (z : Z) : layer_name :=
  if z =? 1 then Letter R
  else if z =? 2 then Letter F
  else if z =? 3 then Letter H
  else Number z.

(** The filter the specification describes: a rolling mode over a window of
    three centered on the sample (the sample, the one before and the one
    after). *)
Definition centered_window (a : list Z) (i : nat) : list Z :=
  firstn (S (S i) - (i - 1)) (skipn (i - 1) a).

Definition centered_rolling_mode (a : list Z) : list Z :=
  map (fun i => mode (centered_window a i)) (seq 0 (length a)).

(** The rolling window computed along the list: [buf] is the window of the
    position before. *)
Fixpoint roll (window : nat) (f : list Z -> Z) (buf a : list Z) : list Z :=
  match a with
  | [] => []
  | x :: a' =>
      let win := lastn window (buf ++ [x]) in
      f win :: roll window f win a'
  end.

Section Classify.

(** [classifier.predict], row by row. *)
Variable predict : features -> label.

(** Lines 638-656. *)
Definition classify_profile (profile : list features) : list classified :=
  let profile_prediction := map (fun x => code (predict x)) profile in
  let layer_type := smooth_layer_type profile_prediction in
  map (fun p => mkClassified (fst p) (snd p) (name_of (snd p)))
      (combine profile layer_type).

(** *** The rolling window, position by position and along the list *)

Lemma lastn_app_lastn {A} n (p s : list A) :
  lastn n (lastn n p ++ s) = lastn n (p ++ s).
Proof.
  unfold lastn. rewrite !skipn_app, !length_app, !length_skipn, skipn_skipn.
  f_equal; f_equal; lia.
Qed.

Lemma rolling_apply_roll window f pre a :
  map (fun i => f (lastn window (pre ++ firstn (S i) a))) (seq 0 (length a)) =
  roll window f (lastn window pre) a.
Proof.
  revert pre. induction a as [|x a IH]; intros pre; [reflexivity|].
  simpl length. rewrite <- cons_seq, <- seq_shift, map_cons, map_map.
  simpl roll. rewrite lastn_app_lastn. f_equal.
  rewrite <- IH. apply map_ext. intros i.
  now rewrite <- app_assoc.
Qed.

Lemma smooth_layer_type_roll a : smooth_layer_type a = roll 3 mode [] a.
Proof.
  unfold smooth_layer_type, rolling_apply, window_at.
  apply (rolling_apply_roll 3 mode [] a).
Qed.

Lemma length_smooth_layer_type a : length (smooth_layer_type a) = length a.
Proof.
  unfold smooth_layer_type, rolling_apply. now rewrite length_map, length_seq.
Qed.

Lemma roll_cons window f buf x a :
  roll window f buf (x :: a) =
  f (lastn window (buf ++ [x])) :: roll window f (lastn window (buf ++ [x])) a.
Proof. reflexivity. Qed.

(** Once the window holds one label only, it stays so along a run of that
    label. *)
Lemma roll_steady a m :
  roll 3 mode [code a; code a; code a] (repeat (code a) m) = repeat (code a) m.
Proof.
  induction m as [|m IH]; [reflexivity|].
  cbn [repeat]. rewrite roll_cons.
  change (lastn 3 ([code a; code a; code a] ++ [code a]))
    with [code a; code a; code a].
  rewrite IH. f_equal. destruct a; reflexivity.
Qed.

(** A flip after a window of one label, and the run of that label behind
    it: the three windows that hold the flip all have two of the other
    label. *)
Lemma roll_flip a b m buf :
  lastn 3 (buf ++ [code b]) = [code a; code a; code b] ->
  roll 3 mode buf (code b :: repeat (code a) m) = repeat (code a) (S m).
Proof.
  intros Hbuf. rewrite roll_cons, Hbuf.
  destruct m as [|m].
  { destruct a, b; reflexivity. }
  cbn [repeat]. rewrite roll_cons.
  change (lastn 3 ([code a; code a; code b] ++ [code a]))
    with [code a; code b; code a].
  destruct m as [|m].
  { destruct a, b; reflexivity. }
  cbn [repeat]. rewrite roll_cons.
  change (lastn 3 ([code a; code b; code a] ++ [code a]))
    with [code b; code a; code a].
  destruct m as [|m].
  { destruct a, b; reflexivity. }
  cbn [repeat]. rewrite roll_cons.
  change (lastn 3 ([code b; code a; code a] ++ [code a]))
    with [code a; code a; code a].
  rewrite roll_steady.
  destruct a, b; reflexivity.
Qed.

Lemma roll_run_then_flip a b n m :
  roll 3 mode [code a; code a; code a]
       (repeat (code a) n ++ code b :: repeat (code a) m)
  = repeat (code a) (n + S m).
Proof.
  induction n as [|n IH]; [now apply roll_flip|].
  cbn [repeat Nat.add]. rewrite <- app_comm_cons, roll_cons.
  change (lastn 3 ([code a; code a; code a] ++ [code a]))
    with [code a; code a; code a].
  rewrite IH. f_equal. destruct a; reflexivity.
Qed.

(** Smoothing a run of one label with one flip in it, two samples or more
    into the run. *)
Lemma smooth_single_flip a b n m :
  (2 <= n)%nat ->
  smooth_layer_type (repeat (code a) n ++ code b :: repeat (code a) m)
  = repeat (code a) (n + S m).
Proof.
  intros Hn. rewrite smooth_layer_type_roll.
  destruct n as [|[|n]]; try lia.
  cbn [repeat Nat.add]. rewrite <- !app_comm_cons, !roll_cons.
  change (lastn 3 ([] ++ [code a])) with [code a].
  change (lastn 3 ([code a] ++ [code a])) with [code a; code a].
  destruct n as [|n].
  - cbn [repeat app]. rewrite roll_flip by reflexivity.
    destruct a; reflexivity.
  - cbn [repeat Nat.add]. rewrite <- !app_comm_cons, !roll_cons.
    change (lastn 3 ([code a; code a] ++ [code a])) with [code a; code a; code a].
    rewrite roll_run_then_flip.
    destruct a; reflexivity.
Qed.

Lemma name_of_code a : name_of (code a) = Letter a.
Proof. destruct a; reflexivity. Qed.

Lemma map_combine_snd {A B C} (f : A * B -> C) (g : B -> C) (a : list A) (b : list B) :
  (forall p, f p = g (snd p)) -> length a = length b ->
  map f (combine a b) = map g b.
Proof.
  intros Hf. revert b. induction a as [|x a IH]; intros [|y b] Hlen;
    simpl in *; try discriminate; [reflexivity|].
  rewrite Hf. simpl. f_equal. apply IH. lia.
Qed.

Lemma smooth_layer_type_nth a i :
  (i < length a)%nat ->
  nth_error (smooth_layer_type a) i = Some (mode (lastn 3 (firstn (S i) a))).
Proof.
  intros Hi. unfold smooth_layer_type, rolling_apply, window_at.
  rewrite nth_error_map, nth_error_seq.
  now rewrite (proj2 (Nat.ltb_lt _ _) Hi).
Qed.

Lemma lastn_app_exact {A} n (p w : list A) : length w = n -> lastn n (p ++ w) = w.
Proof.
  intros <-. unfold lastn. rewrite length_app, Nat.add_sub.
  rewrite skipn_app, skipn_all, Nat.sub_diag. reflexivity.
Qed.

(** The windows that hold a flip which has two samples of another label on
    either side. *)
Lemma windows_over_flip (pre post : list Z) x y k :
  (k < 3)%nat ->
  lastn 3 (firstn (S (length pre + 2 + k)) (pre ++ x :: x :: y :: x :: x :: post))
  = nth k [[x; x; y]; [x; y; x]; [y; x; x]] [].
Proof.
  intros Hk.
  replace (S (length pre + 2 + k)) with (length pre + (3 + k))%nat by lia.
  rewrite firstn_app_2.
  destruct k as [|[|[|k]]]; try lia; cbn [firstn Nat.add nth].
  - now apply lastn_app_exact.
  - change (pre ++ [x; x; y; x]) with (pre ++ [x] ++ [x; y; x]).
    rewrite app_assoc. now apply lastn_app_exact.
  - change (pre ++ [x; x; y; x; x]) with (pre ++ [x; x] ++ [y; x; x]).
    rewrite app_assoc. now apply lastn_app_exact.
Qed.

(** X19.  The layer types [classify_profile] returns are
    the rolling mode of the raw predictions over a window that trails: at
    each sample, that sample and the two before it (fewer at the first two
    samples), the smallest number winning a tie.  So a single sample of one
    label that has two samples of another label directly before it and two
    directly after it is erased: the sample and the two after it, whose
    windows hold it, all get the other label.  And a profile predicted as
    one label throughout but for a single sample, two samples or more from
    its start, comes out as that label throughout. *)
Theorem single_flip_erased profile :
  map layer_type (classify_profile profile) =
    map (fun i => mode (lastn 3 (firstn (S i) (map code (map predict profile)))))
        (seq 0 (length profile)) /\
  (forall pre a b post k,
     map predict profile = pre ++ a :: a :: b :: a :: a :: post ->
     (k < 3)%nat ->
     nth_error (map layer_label (classify_profile profile)) (length pre + 2 + k)
     = Some (Letter a)) /\
  (forall a b n m,
     map predict profile = repeat a n ++ b :: repeat a m ->
     (2 <= n)%nat ->
     map layer_label (classify_profile profile) = repeat (Letter a) (n + S m)).
Proof.
  assert (Htype : map layer_type (classify_profile profile)
                  = smooth_layer_type (map (fun x => code (predict x)) profile)).
  { unfold classify_profile. rewrite map_map. simpl.
    rewrite (map_combine_snd _ (fun z => z)).
    - apply map_id.
    - reflexivity.
    - now rewrite length_smooth_layer_type, length_map. }
  assert (Hlabel : map layer_label (classify_profile profile)
                   = map name_of (smooth_layer_type
                                    (map (fun x => code (predict x)) profile))).
  { unfold classify_profile. rewrite map_map. simpl.
    apply map_combine_snd; [reflexivity|].
    now rewrite length_smooth_layer_type, length_map. }
  split; [|split].
  - rewrite Htype, map_map. unfold smooth_layer_type, rolling_apply, window_at.
    now rewrite length_map.
  - intros pre a b post k Hraw Hk.
    assert (Hcodes : map (fun x => code (predict x)) profile
                     = map code pre ++ code a :: code a :: code b :: code a
                                   :: code a :: map code post).
    { now rewrite <- (map_map predict code), Hraw, map_app. }
    rewrite Hlabel, nth_error_map, Hcodes.
    rewrite <- (length_map code pre).
    rewrite smooth_layer_type_nth
      by (rewrite length_app; simpl; lia).
    rewrite windows_over_flip by exact Hk. simpl option_map. f_equal.
    destruct k as [|[|[|k]]]; try lia; destruct a, b; reflexivity.
  - intros a b n m Hraw Hn.
    assert (Hcodes : map (fun x => code (predict x)) profile
                     = repeat (code a) n ++ code b :: repeat (code a) m).
    { rewrite <- (map_map predict code), Hraw, map_app. simpl.
      now rewrite !map_repeat. }
    rewrite Hlabel, Hcodes, smooth_single_flip by assumption.
    rewrite map_repeat. now rewrite name_of_code.
Qed.

(** *** What the mode of a window can be *)

Lemma In_insert_unique x y a : In y (insert_unique x a) -> y = x \/ In y a.
Proof.
  induction a as [|z a IH]; simpl.
  - intros [<-|[]]. now left.
  - destruct (x <? z).
    + intros [<-|Hy]; [now left | now right].
    + destruct (x =? z).
      * intros Hy. now right.
      * intros [<-|Hy]; [right; now left|].
        destruct (IH Hy) as [->|Hy']; [now left | right; now right].
Qed.

Lemma insert_unique_nonempty x a : insert_unique x a <> [].
Proof.
  destruct a as [|z a]; simpl; [discriminate|].
  destruct (x <? z); [discriminate|]. destruct (x =? z); discriminate.
Qed.

Lemma In_np_unique y a : In y (np_unique a) -> In y a.
Proof.
  induction a as [|x a IH]; simpl; [tauto|].
  intros Hy. destruct (In_insert_unique _ _ _ Hy) as [->|Hy'];
    [now left | right; now apply IH].
Qed.

Lemma most_frequent_spec scores a old oc :
  (most_frequent scores a old oc = old /\
   forall s, In s scores -> (count_occ Z.eq_dec a s <= oc)%nat) \/
  In (most_frequent scores a old oc) scores.
Proof.
  revert old oc. induction scores as [|s scores IH]; intros old oc; simpl.
  - left. split; [reflexivity|]. intros s [].
  - destruct (Nat.ltb_spec oc (count_occ Z.eq_dec a s)) as [Hlt|Hge].
    + destruct (IH s (count_occ Z.eq_dec a s)) as [[E _]|HIn].
      * right. left. now rewrite E.
      * right. now right.
    + destruct (IH old oc) as [[E Hall]|HIn].
      * left. split; [exact E|]. intros s' [<-|Hs']; [lia | now apply Hall].
      * right. now right.
Qed.

(** The mode of a window that is not empty is one of its values. *)
Lemma mode_In a : a <> [] -> In (mode a) a.
Proof.
  intros Ha. unfold mode.
  destruct (most_frequent_spec (np_unique a) a 0 0) as [[_ Hall]|HIn].
  - exfalso. destruct a as [|x a]; [now apply Ha|].
    change (np_unique (x :: a)) with (insert_unique x (np_unique a)) in Hall.
    destruct (insert_unique x (np_unique a)) as [|s scores] eqn:E.
    + now apply (insert_unique_nonempty x (np_unique a)).
    + assert (Hs : In s (x :: a)).
      { apply (In_np_unique s (x :: a)).
        change (np_unique (x :: a)) with (insert_unique x (np_unique a)).
        rewrite E. now left. }
      pose proof (Hall s (or_introl eq_refl)) as Hle.
      apply (count_occ_In Z.eq_dec) in Hs. lia.
  - now apply In_np_unique.
Qed.

Lemma nth_error_combine {A B} (a : list A) (b : list B) i x y :
  nth_error (combine a b) i = Some (x, y) ->
  nth_error a i = Some x /\ nth_error b i = Some y.
Proof.
  revert b i. induction a as [|x' a IH]; intros [|y' b] [|i]; simpl;
    try discriminate.
  - intros E. injection E as -> ->. now split.
  - apply IH.
Qed.

Lemma In_window (a : list Z) n i z :
  (i < length a)%nat ->
  In z (lastn n (firstn (S i) a)) ->
  exists j, (i + 1 - n <= j <= i)%nat /\ nth_error a j = Some z.
Proof.
  intros Hi Hz. apply In_nth_error in Hz. destruct Hz as [k Hk].
  unfold lastn in Hk. rewrite nth_error_skipn, nth_error_firstn in Hk.
  rewrite length_firstn in Hk.
  destruct (Nat.ltb_spec (Nat.min (S i) (length a) - n + k) (S i))
    as [Hlt|Hge]; [|discriminate].
  exists (Nat.min (S i) (length a) - n + k)%nat. split; [|exact Hk].
  assert (Hlen : (Nat.min (S i) (length a) - n + k < length a)%nat).
  { apply nth_error_Some. now rewrite Hk. }
  lia.
Qed.

Lemma firstn_S_nth_error {A} (a : list A) j x :
  nth_error a j = Some x -> firstn (S j) a = firstn j a ++ [x].
Proof.
  revert j. induction a as [|y a IH]; intros [|j]; simpl; try discriminate.
  - intros E. now injection E as ->.
  - intros E. f_equal. now apply IH.
Qed.

Lemma layer_types_smoothed profile :
  map layer_type (classify_profile profile)
  = smooth_layer_type (map (fun x => code (predict x)) profile).
Proof.
  unfold classify_profile. rewrite map_map. simpl.
  rewrite (map_combine_snd _ (fun z => z)).
  - apply map_id.
  - reflexivity.
  - now rewrite length_smooth_layer_type, length_map.
Qed.

Lemma layer_labels_smoothed profile :
  map layer_label (classify_profile profile)
  = map name_of (smooth_layer_type (map (fun x => code (predict x)) profile)).
Proof.
  unfold classify_profile. rewrite map_map. simpl.
  apply map_combine_snd; [reflexivity|].
  now rewrite length_smooth_layer_type, length_map.
Qed.

Lemma map_combine_fst {A B C} (f : A * B -> C) (g : A -> C) (a : list A) (b : list B) :
  (forall p, f p = g (fst p)) -> length a = length b ->
  map f (combine a b) = map g a.
Proof.
  intros Hf. revert b. induction a as [|x a IH]; intros [|y b] Hlen;
    simpl in *; try discriminate; [reflexivity|].
  rewrite Hf. simpl. f_equal. apply IH. lia.
Qed.

(** X12.  [classify_profile] returns the rows it is given, in their order,
    each with its two new columns.  The label of a row is always a letter,
    never a number left over, its layer type is the number of that letter,
    and the letter is what the classifier predicted for that row or for one
    of the two rows before it: smoothing invents no label and looks at no
    row further down. *)
Theorem labels_come_from_trailing_window profile :
  map input (classify_profile profile) = profile /\
  forall i row,
    nth_error (classify_profile profile) i = Some row ->
    exists c j x,
      layer_label row = Letter c /\ layer_type row = code c /\
      (i - 2 <= j <= i)%nat /\
      nth_error profile j = Some x /\ predict x = c.
Proof.
  split.
  - unfold classify_profile. rewrite map_map. simpl.
    rewrite (map_combine_fst _ (fun x => x)).
    + apply map_id.
    + reflexivity.
    + now rewrite length_smooth_layer_type, length_map.
  - intros i row Hrow. unfold classify_profile in Hrow.
    rewrite nth_error_map in Hrow.
    destruct (nth_error (combine profile
                (smooth_layer_type (map (fun x => code (predict x)) profile))) i)
      as [[x0 t]|] eqn:Hc; [|discriminate].
    simpl in Hrow. injection Hrow as <-. cbn [layer_label layer_type].
    apply nth_error_combine in Hc. destruct Hc as [Hx0 Ht].
    assert (Hi : (i < length (map (fun x => code (predict x)) profile))%nat).
    { rewrite length_map. apply nth_error_Some. now rewrite Hx0. }
    rewrite (smooth_layer_type_nth _ Hi) in Ht.
    set (raw := map (fun x => code (predict x)) profile) in *.
    set (win := lastn 3 (firstn (S i) raw)) in *.
    assert (Et : t = mode win) by congruence.
    assert (Hne : win <> []).
    { intros E. apply (f_equal (@length Z)) in E. unfold win, lastn in E.
      rewrite length_skipn, length_firstn in E. cbn [length] in E. lia. }
    destruct (@In_window raw 3%nat i _ Hi (@mode_In _ Hne)) as [j [Hj Hz]].
    unfold raw in Hz. rewrite nth_error_map in Hz.
    destruct (nth_error profile j) as [x|] eqn:Hx; [|discriminate].
    assert (Em : mode win = code (predict x)).
    { cbn [option_map] in Hz. congruence. }
    exists (predict x), j, x. rewrite Et, Em.
    repeat split; try lia; try assumption. apply name_of_code.
Qed.

(** X13.  The smoothing, sample by sample.  The first sample keeps the
    label the classifier gave it; the second gets, of its own label and the
    first one's, the one with the smaller number (R before F before H).
    From the third sample on the label is a vote among the sample and the
    two before it: a label that two of the three carry wins, and when all
    three differ the label is R. *)
Theorem smoothing_is_a_vote_of_three profile :
  (forall x, nth_error profile 0 = Some x ->
     nth_error (map layer_label (classify_profile profile)) 0
     = Some (Letter (predict x))) /\
  (forall x y,
     nth_error profile 0 = Some x -> nth_error profile 1 = Some y ->
     nth_error (map layer_label (classify_profile profile)) 1
     = Some (Letter (if code (predict x) <=? code (predict y)
                     then predict x else predict y))) /\
  (forall j x y z c,
     nth_error profile j = Some x ->
     nth_error profile (S j) = Some y ->
     nth_error profile (S (S j)) = Some z ->
     (predict x = c /\ predict y = c) \/
     (predict x = c /\ predict z = c) \/
     (predict y = c /\ predict z = c) ->
     nth_error (map layer_label (classify_profile profile)) (S (S j))
     = Some (Letter c)) /\
  (forall j x y z,
     nth_error profile j = Some x ->
     nth_error profile (S j) = Some y ->
     nth_error profile (S (S j)) = Some z ->
     predict x <> predict y -> predict y <> predict z ->
     predict x <> predict z ->
     nth_error (map layer_label (classify_profile profile)) (S (S j))
     = Some (Letter R)).
Proof.
  set (raw := map (fun x => code (predict x)) profile).
  assert (Hraw : forall j x, nth_error profile j = Some x ->
                   nth_error raw j = Some (code (predict x))).
  { intros j x Hx. unfold raw. now rewrite nth_error_map, Hx. }
  assert (Hat : forall i x, nth_error profile i = Some x ->
            nth_error (map layer_label (classify_profile profile)) i
            = Some (name_of (mode (lastn 3 (firstn (S i) raw))))).
  { intros i x Hx. rewrite layer_labels_smoothed, nth_error_map.
    fold raw. rewrite smooth_layer_type_nth; [reflexivity|].
    apply nth_error_Some. now rewrite (Hraw _ _ Hx). }
  assert (Hwin : forall j x y z,
            nth_error profile j = Some x ->
            nth_error profile (S j) = Some y ->
            nth_error profile (S (S j)) = Some z ->
            lastn 3 (firstn (S (S (S j))) raw)
            = [code (predict x); code (predict y); code (predict z)]).
  { intros j x y z Hx Hy Hz.
    rewrite (firstn_S_nth_error _ _ (Hraw _ _ Hz)).
    rewrite (firstn_S_nth_error _ _ (Hraw _ _ Hy)).
    rewrite (firstn_S_nth_error _ _ (Hraw _ _ Hx)).
    rewrite <- !app_assoc. now apply lastn_app_exact. }
  repeat split.
  - intros x Hx. rewrite (Hat _ _ Hx).
    rewrite (firstn_S_nth_error _ _ (Hraw _ _ Hx)). f_equal.
    destruct (predict x); reflexivity.
  - intros x y Hx Hy. rewrite (Hat _ _ Hy).
    rewrite (firstn_S_nth_error _ _ (Hraw _ _ Hy)).
    rewrite (firstn_S_nth_error _ _ (Hraw _ _ Hx)). f_equal.
    destruct (predict x), (predict y); reflexivity.
  - intros j x y z c Hx Hy Hz Hvote. rewrite (Hat _ _ Hz).
    rewrite (Hwin _ _ _ _ Hx Hy Hz). f_equal.
    destruct Hvote as [[<- <-]|[[<- <-]|[<- <-]]];
      destruct (predict x), (predict y), (predict z);
      try discriminate; reflexivity.
  - intros j x y z Hx Hy Hz Hxy Hyz Hxz. rewrite (Hat _ _ Hz).
    rewrite (Hwin _ _ _ _ Hx Hy Hz). f_equal.
    destruct (predict x), (predict y), (predict z);
      try congruence; reflexivity.
Qed.

(** C8, the defect.  The comment in [classify_profile] says layers must be
    at least 1 cm, and the samples it is given are 2.5 mm apart.  The filter
    it applies is a mode over the sample and the two before it, which spans
    7.5 mm and trails.  So thinner layers come through.  A profile predicted
    F, R, F, F comes out F, R, F, F: the single R sample, a layer of 2.5 mm
    with another label on both sides, is kept.  A profile predicted R, R, R,
    F, F, R, R, R comes out R, R, R, R, F, F, R, R: the F layer of two
    samples, 5 mm, is kept, one sample further down. *)
Theorem thin_layers_survive_smoothing profile :
  (map predict profile = [F; R; F; F] ->
   map layer_label (classify_profile profile)
   = [Letter F; Letter R; Letter F; Letter F]) /\
  (map predict profile = [R; R; R; F; F; R; R; R] ->
   map layer_label (classify_profile profile)
   = [Letter R; Letter R; Letter R; Letter R;
      Letter F; Letter F; Letter R; Letter R]).
Proof.
  assert (Hraw : map (fun x => code (predict x)) profile
                 = map code (map predict profile))
    by now rewrite map_map.
  split; intros Hp; rewrite layer_labels_smoothed, Hraw, Hp; reflexivity.
Qed.

End Classify.

(** Scenario D on a classifier that reads the label off the first feature:
    a depth-hoar sample among ten rounded ones. *)
Lemma single_flip_erased_run :
  let predict x := if Qeq_bool (relative_height x) 0 then H else R in
  let rounded := mkFeatures 1 1 1 in
  let hoar := mkFeatures 0 1 1 in
  map layer_label
      (classify_profile predict (repeat rounded 5 ++ hoar :: repeat rounded 5))
  = repeat (Letter R) 11.
Proof.
  intros predict rounded hoar.
  exact (proj2 (proj2
    (@single_flip_erased predict (repeat rounded 5 ++ hoar :: repeat rounded 5)))
    R H 5%nat 5%nat eq_refl ltac:(lia)).
Defined.

(** The defect on a classifier that reads the label off the first feature:
    four samples 2.5 mm apart, the second one rounded among faceted ones. *)
Lemma thin_layers_survive_smoothing_run :
  let predict x := if Qeq_bool (l x) 0 then R else F in
  let profile := [mkFeatures 0 1 1; mkFeatures (25 # 10) 0 1;
                  mkFeatures 5 1 1; mkFeatures (75 # 10) 1 1] in
  map layer_label (classify_profile predict profile)
  = [Letter F; Letter R; Letter F; Letter F].
Proof.
  intros predict profile.
  exact (proj1 (@thin_layers_survive_smoothing predict profile) eq_refl).
Defined.

(** A faceted run (2) with a rounded sample (1) in second place: the flip
    has faceted samples on both sides and comes through the filter
    unchanged.  And the filter is not the centered one: on two rounded
    samples followed by three faceted ones the centered rolling mode returns
    its input, the code moves the boundary down by one sample. *)
Lemma flip_at_second_sample_survives :
  smooth_layer_type [2; 1; 2; 2] = [2; 1; 2; 2] /\
  smooth_layer_type [1; 1; 2; 2; 2] = [1; 1; 1; 2; 2] /\
  centered_rolling_mode [1; 1; 2; 2; 2] = [1; 1; 2; 2; 2].
Proof.
  repeat split.
Qed.

End Classification.


(* ===================================================================== *)
(** * Part 5: propagation bias in freeboard retrievals *)
(* ===================================================================== *)

Module Application.

Import Reals Lra.
Local Open Scope R_scope.

(** Vacuum speed of light. *)
Definition C : R := 299792458.

(** ** W99 constants and methods *)

Definition sd_coefs : list (list R) :=
  [[28.01; 0.1270; -1.1833; -0.1164; -0.0051; 0.0243; 7.6; -0.06; 0.07; 4.6];
   [30.28; 0.1056; -0.5908; -0.0263; -0.0049; 0.0044; 7.9; -0.06; 0.08; 5.5];
   [33.89; 0.5486; -0.1996; 0.0280; 0.0216; -0.0176; 9.4; -0.04; 0.10; 6.2];
   [36.80; 0.4046; -0.4005; 0.0256; 0.0024; -0.0641; 9.4; -0.09; 0.09; 6.1];
   [36.93; 0.0214; -1.1795; -0.1076; -0.0244; -0.0142; 10.6; -0.21; 0.09; 6.3];
   [36.59; 0.7021; -1.4819; -0.1195; -0.0009; -0.0603; 14.1; -0.16; 0.12; 8.1];
   [11.02; 0.3008; -1.2591; -0.0811; -0.0043; -0.0959; 9.5; 0.02; 0.10; 6.7];
   [4.64; 0.3100; -0.6350; -0.0655; 0.0059; -0.0005; 4.6; -0.01; 0.05; 3.3];
   [15.81; 0.2119; -1.0292; -0.0868; -0.0177; -0.0723; 7.8; -0.03; 0.06; 3.8];
   [22.66; 0.3594; -1.3483; -0.1063; 0.0051; -0.0577; 8.0; -0.08; 0.06; 4.0];
   [25.57; 0.1496; -1.4643; -0.1409; -0.0079; -0.0258; 7.9; -0.05; 0.07; 4.3];
   [26.67; -0.1876; -1.4229; -0.1413; -0.0316; -0.0029; 8.2; -0.06; 0.07; 4.8]].

Definition swe_coefs : list (list R) :=
  [[8.37; -0.0270; -0.3400; -0.0319; -0.0056; -0.0005; 2.5; -0.005; 0.024; 1.6];
   [9.43; 0.0058; -0.1309; 0.0017; -0.0021; -0.0072; 2.6; -0.007; 0.028; 1.8];
   [10.74; 0.1618; 0.0276; 0.0213; 0.0076; -0.0125; 3.1; 0.007; 0.032; 2.1];
   [11.67; 0.0841; -0.1328; 0.0081; -0.0003; -0.0301; 3.2; -0.013; 0.032; 2.1];
   [11.80; -0.0043; -0.4284; -0.0380; -0.0071; -0.0063; 3.5; -0.047; 0.033; 2.2];
   [12.48; 0.2084; -0.5739; -0.0468; -0.0023; -0.0253; 4.9; -0.030; 0.044; 2.9];
   [4.01; 0.0970; -0.4930; -0.0333; -0.0026; -0.0343; 3.5; 0.008; 0.037; 2.4];
   [1.08; 0.0712; -0.1450; -0.0155; 0.0014; -0.0000; 1.1; -0.001; 0.012; 0.8];
   [3.84; 0.0393; -0.2107; -0.0182; -0.0053; -0.0190; 2.0; -0.003; 0.016; 1.0];
   [6.24; 0.1158; -0.2803; -0.0215; 0.0015; -0.0176; 2.3; -0.005; 0.021; 1.4];
   [7.54; 0.0567; -0.3201; -0.0284; -0.0032; -0.0129; 2.4; -0.000; 0.023; 1.5];
   [8.00; -0.0540; -0.3650; -0.0362; -0.0112; -0.0035; 2.5; -0.003; 0.024; 1.5]].

Definition earth_radius : R := 6371000.8.
Definition water_density : R := 1024.0.

(** [table[i, 0:6]]; an index below zero counts from the end. *)
Definition row_0_6 (table : list (list R)) (i : Z) : list R :=
  let i := if (i <? 0)%Z then (i + Z.of_nat (length table))%Z else i in
  firstn 6 (nth (Z.to_nat i) table []).

Definition get_sd_coefs (month : Z) : list R := row_0_6 sd_coefs (month - 1).

Definition get_swe_coefs (month : Z) : list R := row_0_6 swe_coefs (month - 1).

Definition get_snow_depth (month : Z) (l2x l2y : R) : R :=
  let sd := fun i => nth i (get_sd_coefs month) 0 in
  let snow_depth :=
    sd 0%nat + sd 1%nat * l2x + sd 2%nat * l2y + sd 3%nat * l2x * l2y
    + sd 4%nat * l2x * l2x + sd 5%nat * l2y * l2y in
  snow_depth * 0.01.

Definition get_snow_density (snow_depth : R) (month : Z) (l2x l2y : R) : R :=
  let swe := fun i => nth i (get_swe_coefs month) 0 in
  let snow_water_equivalent :=
    swe 0%nat + swe 1%nat * l2x + swe 2%nat * l2y + swe 3%nat * l2x * l2y
    + swe 4%nat * l2x * l2x + swe 5%nat * l2y * l2y in
  let snow_water_equivalent := snow_water_equivalent * 0.01 in
  snow_water_equivalent / snow_depth * water_density.

(** ** Refractive index and wave speed *)

Definition snow_refractive_index (snow_density : R) (perm_ice : R) : R :=
  let perm_snow := (1 + 0.51 * snow_density / 1000) ^ 3 in
  let n_snow := sqrt perm_snow in
  n_snow.

(** [**(-1.5)] on a positive float is the real power. *)
Definition c_in_snow (snow_density : R) (C : R) : R :=
  C * Rpower (1 + 0.51 * snow_density / 1000) (-1.5).

(** ** The bias cells *)

(** The columns of [summary_df] and of [data_df] the cells read. *)
Record summary_row : Type := mkSummary {
  file_name : string;
  longitude : R;
  latitude : R
}.

Record data_row : Type := mkData {
  data_file_name : string;
  relative_height : R;
  density : R
}.

(** The lists the loop fills. *)
Record lists : Type := mkLists {
  delta_h_static : list R;
  delta_h_w99 : list R;
  delta_h_smp : list R;
  c_cs_w99 : list R;
  c_cs_smp : list R;
  w99_rho_latlon : list R
}.

(** A row of [summary_df] after the assignments. *)
Record bias_row : Type := mkBias {
  summary : summary_row;
  col_delta_h_smp : R;
  col_delta_h_static : R;
  col_delta_h_w99 : R;
  col_delta_h_error : R;
  col_w99_rho : R;
  col_c_cs_w99 : R;
  col_c_cs_smp : R;
  col_delta_h_error_static : R
}.

Definition static_density : R := 300.
Definition bin_height : R := 0.0025.

(** [Series.unique()]: the distinct values in order of appearance. *)
Fixpoint unique (a : list string) : list string :=
  match a with
  | [] => []
  | x :: a' => x :: filter (fun y => negb (String.eqb x y)) (unique a')
  end.

Definition Rsum (a : list R) : R := fold_right Rplus 0 a.

Definition Rmean (a : list R) : R := Rsum a / INR (length a).

(** [max()] of a column that has a row. *)
Definition Rmax_list (a : list R) : R :=
  match a with
  | [] => 0
  | x :: a' => fold_left Rmax a' x
  end.

Section BiasCells.

(** pyproj's polar stereographic projection of a longitude and latitude. *)
Variable p : R -> R -> R * R.

Variable summary_df : list summary_row.
Variable data_df : list data_row.

(** Lines 196-216: one pass of the loop, appending to the six lists. *)
Definition bias_of_profile (acc : lists) (profile : string) : exn + lists :=
  let profile_df := filter (fun d => String.eqb (data_file_name d) profile) data_df in
  match profile_df with
  | [] => inl IndexError
  | first :: _ =>
      let profile_summary :=
        filter (fun s => String.eqb (file_name s) (data_file_name first)) summary_df in
      match profile_summary with
      | [] => inl IndexError
      | s :: _ =>
          let '(x, y) := p (longitude s) (latitude s) in
          let w99x := x / (earth_radius * PI / 180) in
          let w99y := y / (earth_radius * PI / 180) in
          let w99_sd := get_snow_depth 4 w99x w99y in
          let w99_rho := get_snow_density w99_sd 4 w99x w99y in
          let profile_heights := map (fun d => relative_height d / 1000) profile_df in
          let profile_density := map density profile_df in
          let bin_height_array := repeat bin_height (length profile_heights) in
          let profile_thickness := Rmax_list profile_heights in
          inr (mkLists
                 (delta_h_static acc
                    ++ [profile_thickness * (C / c_in_snow static_density C - 1)])
                 (delta_h_w99 acc
                    ++ [profile_thickness * (C / c_in_snow w99_rho C - 1)])
                 (delta_h_smp acc
                    ++ [Rsum (map (fun bd => fst bd * (C / c_in_snow (snd bd) C - 1))
                                  (combine bin_height_array profile_density))])
                 (c_cs_w99 acc ++ [c_in_snow w99_rho C / C])
                 (c_cs_smp acc
                    ++ [Rmean (map (fun d => c_in_snow d C / C) profile_density)])
                 (w99_rho_latlon acc ++ [w99_rho]))
      end
  end.

(** Lines 179-216. *)
Fixpoint bias_loop (acc : lists) (profile_names : list string) : exn + lists :=
  match profile_names with
  | [] => inr acc
  | profile :: rest =>
      match bias_of_profile acc profile with
      | inl e => inl e
      | inr acc' => bias_loop acc' rest
      end
  end.

Definition accumulate : exn + lists :=
  bias_loop (mkLists [] [] [] [] [] []) (unique (map file_name summary_df)).

(** [summary_df[name] = values]: the values must be as many as the rows. *)
Definition column (values : list R) : exn + list R :=
  if (length values =? length summary_df)%nat then inr values else inl ValueError.

(** Lines 226-233, on the lists the loop left. *)
Definition assign_columns (acc : lists) : exn + list bias_row :=
  match column (delta_h_smp acc), column (delta_h_static acc),
        column (delta_h_static acc), column (w99_rho_latlon acc),
        column (c_cs_w99 acc), column (c_cs_smp acc) with
  | inr smp, inr static, inr w99, inr rho, inr cw, inr cs =>
      inr (map (fun i =>
                  mkBias (nth i summary_df (mkSummary EmptyString 0 0))
                         (nth i smp 0) (nth i static 0) (nth i w99 0)
                         (nth i smp 0 - nth i w99 0)
                         (nth i rho 0) (nth i cw 0) (nth i cs 0)
                         (nth i smp 0 - nth i static 0))
               (seq 0 (length summary_df)))
  | _, _, _, _, _, _ => inl ValueError
  end.

(** The two cells, one after the other. *)
Definition bias_cells : exn + (lists * list bias_row) :=
  match accumulate with
  | inl e => inl e
  | inr acc =>
      match assign_columns acc with
      | inl e => inl e
      | inr table => inr (acc, table)
      end
  end.

(** *** What the assignments leave in the table *)




(** *** When the two cells run to their end *)

(** A profile has rows in [data_df]. *)
Definition has_data (name : string) : Prop :=
  exists d, In d data_df /\ data_file_name d = name.

(** The six lists have [n] entries each. *)
Definition lengths_are (n : nat) (acc : lists) : Prop :=
  length (delta_h_static acc) = n /\ length (delta_h_w99 acc) = n /\
  length (delta_h_smp acc) = n /\ length (c_cs_w99 acc) = n /\
  length (c_cs_smp acc) = n /\ length (w99_rho_latlon acc) = n.

Lemma profile_df_rows name :
  filter (fun d => String.eqb (data_file_name d) name) data_df <> [] <->
  has_data name.
Proof.
  split.
  - destruct (filter _ data_df) as [|d rest] eqn:E; [congruence|]. intros _.
    assert (Hd : In d (filter (fun d => String.eqb (data_file_name d) name) data_df))
      by (rewrite E; now left).
    apply filter_In in Hd. destruct Hd as [Hd Hn].
    exists d. split; [exact Hd | now apply String.eqb_eq].
  - intros [d [Hd Hn]] E.
    assert (Hin : In d (filter (fun d => String.eqb (data_file_name d) name) data_df)).
    { apply filter_In. split; [exact Hd | now apply String.eqb_eq]. }
    rewrite E in Hin. destruct Hin.
Qed.

Lemma bias_of_profile_missing acc name :
  ~ has_data name -> bias_of_profile acc name = inl IndexError.
Proof.
  intros Hno. unfold bias_of_profile.
  destruct (filter (fun d => String.eqb (data_file_name d) name) data_df)
    as [|d rest] eqn:E; [reflexivity|].
  exfalso. apply Hno. apply profile_df_rows. rewrite E. discriminate.
Qed.

Lemma bias_of_profile_ok acc name n :
  In name (map file_name summary_df) -> has_data name -> lengths_are n acc ->
  exists acc', bias_of_profile acc name = inr acc' /\ lengths_are (S n) acc'.
Proof.
  intros Hname Hdata (L1 & L2 & L3 & L4 & L5 & L6). unfold bias_of_profile.
  destruct (filter (fun d => String.eqb (data_file_name d) name) data_df)
    as [|first rest] eqn:E.
  { exfalso. now apply (proj2 (profile_df_rows name) Hdata). }
  assert (Hfirst : data_file_name first = name).
  { assert (Hin : In first (filter (fun d => String.eqb (data_file_name d) name)
                                   data_df)) by (rewrite E; now left).
    apply filter_In in Hin. now apply String.eqb_eq. }
  rewrite Hfirst.
  destruct (filter (fun s => String.eqb (file_name s) name) summary_df)
    as [|s srest] eqn:Es.
  { exfalso. apply in_map_iff in Hname. destruct Hname as [s [Hs Hin]].
    assert (Hf : In s (filter (fun s => String.eqb (file_name s) name) summary_df)).
    { apply filter_In. split; [exact Hin | now apply String.eqb_eq]. }
    rewrite Es in Hf. destruct Hf. }
  destruct (p (longitude s) (latitude s)) as [x y].
  eexists. split; [reflexivity|].
  unfold lengths_are. cbn [delta_h_static delta_h_w99 delta_h_smp c_cs_w99
                             c_cs_smp w99_rho_latlon].
  rewrite !length_app. cbn [length]. repeat split; lia.
Qed.

Lemma bias_loop_ok names : forall acc n,
  (forall name, In name names ->
     In name (map file_name summary_df) /\ has_data name) ->
  lengths_are n acc ->
  exists acc', bias_loop acc names = inr acc' /\
               lengths_are (n + length names) acc'.
Proof.
  induction names as [|name names IH]; intros acc n Hall Hlen.
  - exists acc. split; [reflexivity|]. now rewrite Nat.add_0_r.
  - destruct (Hall name (or_introl eq_refl)) as [Hname Hdata].
    destruct (@bias_of_profile_ok acc name n Hname Hdata Hlen) as [acc1 [E1 L1]].
    destruct (IH acc1 (S n) (fun x Hx => Hall x (or_intror Hx)) L1)
      as [acc' [E' L']].
    exists acc'. cbn [bias_loop]. rewrite E1. split; [exact E'|].
    cbn [length]. now rewrite Nat.add_succ_r.
Qed.

Lemma bias_loop_missing names : forall acc n,
  (forall name, In name names -> In name (map file_name summary_df)) ->
  lengths_are n acc ->
  (exists name, In name names /\ ~ has_data name) ->
  bias_loop acc names = inl IndexError.
Proof.
  induction names as [|name names IH]; intros acc n Hall Hlen [bad [Hbad Hno]].
  - destruct Hbad.
  - cbn [bias_loop].
    destruct (filter (fun d => String.eqb (data_file_name d) name) data_df)
      as [|d rest] eqn:E.
    + rewrite bias_of_profile_missing; [reflexivity|].
      intros Hd. apply profile_df_rows in Hd. now apply Hd.
    + assert (Hdata : has_data name).
      { apply profile_df_rows. rewrite E. discriminate. }
      destruct (@bias_of_profile_ok acc name n (Hall name (or_introl eq_refl)) Hdata Hlen)
        as [acc1 [E1 L1]].
      rewrite E1. apply (IH acc1 (S n)).
      * intros x Hx. apply Hall. now right.
      * exact L1.
      * exists bad. split; [|exact Hno].
        destruct Hbad as [<-|Hbad]; [contradiction | exact Hbad].
Qed.

Lemma In_unique x a : In x (unique a) <-> In x a.
Proof.
  induction a as [|y a IH]; [reflexivity|].
  cbn [unique]. split.
  - intros [<-|Hx]; [now left|]. apply filter_In in Hx. right. now apply IH.
  - intros [<-|Hx]; [now left|].
    destruct (String.eqb y x) eqn:E.
    + apply String.eqb_eq in E. now left.
    + right. apply filter_In. split; [now apply IH | now rewrite E].
Qed.

Lemma length_unique a :
  (length (unique a) <= length a)%nat /\
  (length (unique a) = length a <-> NoDup a).
Proof.
  induction a as [|x a [IHle IHiff]].
  - split; [reflexivity|]. split; [constructor | reflexivity].
  - cbn [unique length].
    pose proof (filter_length_le (fun y => negb (String.eqb x y)) (unique a))
      as Hle.
    split; [lia|]. split.
    + intros Hlen.
      assert (Hf : length (filter (fun y => negb (String.eqb x y)) (unique a))
                   = length (unique a)) by lia.
      constructor.
      * intros Hx. apply In_unique in Hx.
        apply filter_length_forallb in Hf.
        rewrite forallb_forall in Hf. specialize (Hf x Hx).
        now rewrite String.eqb_refl in Hf.
      * apply IHiff. lia.
    + intros Hnd. inversion Hnd as [|x' a' Hx Ha]; subst.
      rewrite forallb_filter_id.
      * f_equal. now apply IHiff.
      * apply forallb_forall. intros y Hy. apply (proj1 (In_unique _ _)) in Hy.
        destruct (String.eqb x y) eqn:E; [|reflexivity].
        apply String.eqb_eq in E. subst y. contradiction.
Qed.

Lemma assign_columns_outcome acc n :
  lengths_are n acc ->
  (n = length summary_df ->
   exists table, assign_columns acc = inr table /\
                 length table = length summary_df) /\
  (n <> length summary_df -> assign_columns acc = inl ValueError).
Proof.
  intros (L1 & L2 & L3 & L4 & L5 & L6). unfold assign_columns, column.
  rewrite L1, L3, L4, L5, L6. split.
  - intros ->. rewrite Nat.eqb_refl. eexists. split; [reflexivity|].
    now rewrite length_map, length_seq.
  - intros Hn. apply Nat.eqb_neq in Hn. now rewrite Hn.
Qed.

(** X16.  What decides how the two bias cells end.  If a profile of the
    summary has no rows in the measurements, the loop raises IndexError at
    the first such profile.  Otherwise the loop fills its lists with one
    entry per distinct file name, and the assignments go through exactly
    when the file names of the summary are all different, giving one row
    per profile; with a name that occurs twice the lists are too short and
    the first assignment raises ValueError. *)
Theorem bias_cells_outcome :
  ((exists name, In name (map file_name summary_df) /\ ~ has_data name) ->
   bias_cells = inl IndexError) /\
  ((forall name, In name (map file_name summary_df) -> has_data name) ->
   (NoDup (map file_name summary_df) ->
    exists acc table,
      bias_cells = inr (acc, table) /\
      lengths_are (length summary_df) acc /\
      length table = length summary_df) /\
   (~ NoDup (map file_name summary_df) -> bias_cells = inl ValueError)).
Proof.
  assert (L0 : lengths_are 0 (mkLists [] [] [] [] [] [])).
  { repeat split. }
  assert (Hsub : forall name, In name (unique (map file_name summary_df)) ->
                   In name (map file_name summary_df)).
  { intros name. apply In_unique. }
  split.
  - intros [bad [Hbad Hno]]. unfold bias_cells, accumulate.
    rewrite (@bias_loop_missing (unique (map file_name summary_df)) _ 0%nat Hsub L0);
      [reflexivity|].
    exists bad. split; [now apply In_unique | exact Hno].
  - intros Hall.
    destruct (@bias_loop_ok (unique (map file_name summary_df)) _ 0%nat
                (fun name Hn => conj (Hsub name Hn) (Hall name (Hsub name Hn))) L0)
      as [acc [Eacc Lacc]].
    cbn [Nat.add] in Lacc.
    destruct (@assign_columns_outcome acc _ Lacc) as [Hok Hbad].
    destruct (length_unique (map file_name summary_df)) as [_ Hiff].
    rewrite length_map in Hiff.
    unfold bias_cells, accumulate. rewrite Eacc. split.
    + intros Hnd. apply Hiff in Hnd.
      destruct (Hok Hnd) as [table [Et Lt]].
      exists acc, table. rewrite Et. split; [reflexivity|].
      split; [now rewrite <- Hnd | exact Lt].
    + intros Hdup. rewrite Hbad; [reflexivity|].
      intros E. apply Hdup. now apply Hiff.
Qed.

End BiasCells.

(** ** Facts about the two helpers *)

(** The refractive index is the power 3/2 of the base of the permittivity. *)
Lemma snow_refractive_index_power d perm_ice :
  0 < 1 + 0.51 * d / 1000 ->
  snow_refractive_index d perm_ice = Rpower (1 + 0.51 * d / 1000) 1.5.
Proof.
  intros Hx. unfold snow_refractive_index.
  rewrite <- Rpower_sqrt by (apply pow_lt; exact Hx).
  replace ((1 + 0.51 * d / 1000) ^ 3)
    with (Rpower (1 + 0.51 * d / 1000) (INR 3)) by (apply Rpower_pow; exact Hx).
  rewrite Rpower_mult. f_equal. simpl. lra.
Qed.

(** On the reals the two formulas are inverse to each other: for a density
    [d] with [1 + 0.51*d/1000 > 0], the speed of light in snow times the
    refractive index of the snow is the speed [C] the speed in snow was
    computed from. *)
Lemma real_formulas_inverse d C0 perm_ice :
  0 < 1 + 0.51 * d / 1000 ->
  c_in_snow d C0 * snow_refractive_index d perm_ice = C0.
Proof.
  intros Hx. rewrite snow_refractive_index_power by exact Hx.
  unfold c_in_snow. rewrite Rmult_assoc, <- Rpower_plus.
  replace (-1.5 + 1.5) with 0 by lra.
  rewrite Rpower_O by exact Hx. lra.
Qed.



(** ** A small run *)

(** One profile, one metre thick, of 300 kg m-3 throughout, projected onto
    the pole. *)
Module Fixture.

Definition p (lon lat : R) : R * R := (0, 0).
Definition summary_df : list summary_row := [mkSummary "S43M1234" (-62) 82].
Definition data_df : list data_row := [mkData "S43M1234" 1000 300].

(** The April climatology at the pole. *)
Definition w99_rho : R :=
  get_snow_density (get_snow_depth 4 (0 / (earth_radius * PI / 180))
                                     (0 / (earth_radius * PI / 180)))
                   4 (0 / (earth_radius * PI / 180)) (0 / (earth_radius * PI / 180)).

End Fixture.




End Application.


(* ===================================================================== *)
(** * Part 5 in double precision: the speed of light in snow *)
(* ===================================================================== *)

(** The two helpers as Python evaluates them, on IEEE binary64 numbers. *)
Module Doubles.

Import SpecFloat FloatOps.
Local Open Scope Z_scope.

Definition prec : Z := 53.
Definition emax : Z := 1024.

(** The double nearest to [m * 2^e], ties to even. *)
Definition nearest (m e : Z) : spec_float := binary_normalize prec emax m e false.

(** A Python [int] converted to [float]. *)
Definition of_Z (z : Z) : PrimFloat.float := SF2Prim (nearest z 0).

(** The literals [0.51] and [-1.5]. *)
Definition point_51 : PrimFloat.float := PrimFloat.div (of_Z 51) (of_Z 100).
Definition minus_1p5 : PrimFloat.float := SF2Prim (nearest (-3) (-1)).

Definition is_inf (x : PrimFloat.float) : bool :=
  match Prim2SF x with
  | S754_infinity _ => true
  | _ => false
  end.

(** [1 + 0.51 * snow_density / 1000] *)
Definition base (snow_density : PrimFloat.float) : PrimFloat.float :=
  PrimFloat.add (of_Z 1)
    (PrimFloat.div (PrimFloat.mul point_51 snow_density) (of_Z 1000)).

Section Helpers.

(** The C library's [pow], which Python's [**] calls on two floats. *)
Variable pow : PrimFloat.float -> PrimFloat.float -> PrimFloat.float.

(** [x ** 3] and [x ** (-1.5)].  Python answers for the special values
    itself and calls [pow] on a finite base that is not zero; [None] is for
    the cases in which no float comes back: a result out of range
    (OverflowError), a zero base with the negative exponent
    (ZeroDivisionError), a negative base with the fractional exponent (the
    result is a complex number). *)
Definition pow_3 (x : PrimFloat.float) : option PrimFloat.float :=
  match Prim2SF x with
  | S754_finite _ _ _ =>
      let r := pow x (of_Z 3) in
      if is_inf r then None else Some r
  | _ => Some x
  end.

Definition pow_neg_1p5 (x : PrimFloat.float) : option PrimFloat.float :=
  match Prim2SF x with
  | S754_finite false _ _ =>
      let r := pow x minus_1p5 in
      if is_inf r then None else Some r
  | S754_finite true _ _ => None
  | S754_zero _ => None
  | S754_infinity _ => Some PrimFloat.zero
  | S754_nan => Some x
  end.

(** Lines 102-105; [np.sqrt] is the IEEE square root. *)
Definition snow_refractive_index (snow_density perm_ice : PrimFloat.float)
  : option PrimFloat.float :=
  let perm_snow := pow_3 (base snow_density) in
  let n_snow := option_map PrimFloat.sqrt perm_snow in
  n_snow.

(** Lines 114-115. *)
Definition c_in_snow (snow_density C : PrimFloat.float) : option PrimFloat.float :=
  option_map (PrimFloat.mul C) (pow_neg_1p5 (base snow_density)).

End Helpers.

(** The defaults of the two helpers. *)
Definition C : PrimFloat.float := of_Z 299792458.
Definition perm_ice : PrimFloat.float := PrimFloat.div (of_Z 315) (of_Z 100).


(** ** A [pow] to run the helpers with *)














End Doubles.
